(** * User-data back end: Basic authentication and the session authentication service

    A shallow embedding of
    - [0x01-Basic_authentication/api/v1/auth/auth.py] and [basic_auth.py]
      (module [BasicAuth] below), and
    - [0x03-user_authentication_service/user.py], [db.py] and [auth.py]
      (module [AuthService] below),
    followed by the properties of the specification proved about them. *)

From Stdlib Require Import ZArith String Ascii List Bool Lia.
From stdpp Require Import base option list gmap strings fin_maps sorting.

Local Open Scope string_scope.

(* String concatenation unfolds on a constructor, as the proofs below need. *)
#[local] Arguments String.append !_ _ / : simpl nomatch.

(** ** Python preliminaries shared by both applications *)

(** The exceptions the two applications raise or let through. *)
Inductive exn : Type :=
  | NoResultFound
  | InvalidRequestError (msg : string)
  | ValueError (msg : string)
  | IntegrityError
  | StatementError
  | BinasciiError
  | UnicodeDecodeError
  | AttributeError.

(** The outcome of a Python call: a value, or a raised exception. *)
Inductive result (A : Type) : Type :=
  | Ok (a : A)
  | Raise (e : exn).
Arguments Ok {A} a.
Arguments Raise {A} e.

(** Sequencing of calls that may raise. *)
Definition bind {A B} (m : result A) (k : A -> result B) : result B :=
  match m with
  | Ok a => k a
  | Raise e => Raise e
  end.

(** [try: body except Exception: handler] *)
Definition try_except {A} (body : result A) (handler : exn -> result A) : result A :=
  match body with
  | Ok a => Ok a
  | Raise e => handler e
  end.

(** Truth value of an optional string: [None] and [""] are falsy. *)
Definition truthy (o : option string) : bool :=
  match o with
  | None => false
  | Some EmptyString => false
  | Some (String _ _) => true
  end.

(** [s.startswith(pre)] *)
Fixpoint startswith (s pre : string) {struct pre} : bool :=
  match pre, s with
  | EmptyString, _ => true
  | String a pre', String b s' => Ascii.eqb a b && startswith s' pre'
  | String _ _, EmptyString => false
  end.

(** [s.rstrip(ch)] for a one-character set [ch]. *)
Fixpoint rstrip (ch : ascii) (s : string) : string :=
  match s with
  | EmptyString => EmptyString
  | String c s' =>
      match rstrip ch s' with
      | EmptyString => if Ascii.eqb c ch then EmptyString else String c EmptyString
      | r => String c r
      end
  end.

(** [s[n:]] *)
Fixpoint slice_from (n : nat) (s : string) : string :=
  match n, s with
  | O, _ => s
  | S n', String _ s' => slice_from n' s'
  | S _, EmptyString => EmptyString
  end.

(** [ch in s] *)
Fixpoint contains (ch : ascii) (s : string) : bool :=
  match s with
  | EmptyString => false
  | String c s' => Ascii.eqb c ch || contains ch s'
  end.

(** [s.split(sep, 1)]: at most one split, at the first [sep]. *)
Fixpoint split1 (sep : ascii) (s : string) : list string :=
  match s with
  | EmptyString => [EmptyString]
  | String c s' =>
      if Ascii.eqb c sep then [EmptyString; s']
      else match split1 sep s' with
           | a :: rest => String c a :: rest
           | [] => [String c EmptyString]
           end
  end.

(** [n] copies of [ch]. *)
Fixpoint replicate_char (n : nat) (ch : ascii) : string :=
  match n with
  | O => EmptyString
  | S n' => String ch (replicate_char n' ch)
  end.

(** ** Basic authentication ([0x01-Basic_authentication]) *)

Module BasicAuth.

(** *** [api/v1/auth/auth.py] *)

(** The request as the authentication classes use it: the lookup of a header
    by name ([request.headers.get]). *)
Record Request : Type := { headers_get : string -> option string }.

(** [Auth.require_auth]: [path] or [excluded_paths] may be [None]. *)
Definition require_auth (path : option string)
    (excluded_paths : option (list string)) : bool :=
  match path with
  | None => true
  | Some path =>
      match excluded_paths with
      | None => true
      | Some excluded_paths =>
          if Nat.eqb (length excluded_paths) 0 then true
          else
            let path := rstrip "/" path +:+ "/" in
            negb (existsb (fun excluded_path => startswith path excluded_path)
                          excluded_paths)
      end
  end.

(** [Auth.authorization_header] *)
Definition authorization_header (request : option Request) : option string :=
  match request with
  | None => None
  | Some request => headers_get request "Authorization"
  end.

(** The specification's wording of the same decision, for comparison with
    [require_auth]: the trailing slash is normalized on the path and on every
    excluded entry, and an empty path or an empty exclusion list requires
    authentication. *)
Definition normalize_slash (s : string) : string := rstrip "/" s +:+ "/".

Definition requires_auth_spec (path : string) (excluded_paths : list string) : bool :=
  match path, excluded_paths with
  | EmptyString, _ => true
  | _, [] => true
  | _, _ =>
      negb (existsb (fun e => startswith (normalize_slash path) (normalize_slash e))
                    excluded_paths)
  end.

(** *** [api/v1/auth/basic_auth.py] *)

(** Python's [base64.b64decode] and [bytes.decode('utf-8')]: library functions
    that either return or raise. *)
Class Codec : Type := {
  b64decode : string -> result string;
  utf8_decode : string -> result string
}.

(** Modelled from the spec: the user model of this application
    ([models.user.User], imported by [basic_auth.py], whose source is not at
    hand). As the specification describes the resolution of an account,
    [User.search({'email': e})] returns the list of the users with this email
    and [user.is_valid_password(pwd)] answers whether the password checks;
    both return. *)
Class UserModel : Type := {
  User : Type;
  User_search_email : string -> list User;
  is_valid_password : User -> string -> bool
}.

Section Pipeline.

Context `{!Codec, !UserModel}.

(** [BasicAuth.extract_base64_authorization_header]; [None] stands for any
    argument that is not a [str]. *)
Definition extract_base64_authorization_header
    (authorization_header : option string) : option string :=
  match authorization_header with
  | None => None
  | Some h => if negb (startswith h "Basic ") then None else Some (slice_from 6 h)
  end.

(** [BasicAuth.decode_base64_authorization_header] *)
Definition decode_base64_authorization_header
    (base64_authorization_header : option string) : result (option string) :=
  match base64_authorization_header with
  | None => Ok None
  | Some b =>
      try_except
        (bind (b64decode b) (fun decoded_bytes =>
         bind (utf8_decode decoded_bytes) (fun text => Ok (Some text))))
        (fun _ => Ok None)
  end.

(** [BasicAuth.extract_user_credentials]: the pair [None, None], or the list
    that [split(':', 1)] returns. *)
Definition extract_user_credentials
    (decoded_base64_authorization_header : option string) : list (option string) :=
  match decoded_base64_authorization_header with
  | None => [None; None]
  | Some d => if negb (contains ":" d) then [None; None] else Some <$> split1 ":" d
  end.

(** [BasicAuth.user_object_from_credentials] *)
Definition user_object_from_credentials
    (user_email user_pwd : option string) : option User :=
  match user_email, user_pwd with
  | Some user_email, Some user_pwd =>
      match User_search_email user_email with
      | [] => None
      | user :: _ => if negb (is_valid_password user user_pwd) then None else Some user
      end
  | _, _ => None
  end.

(** [a, b = xs]: unpacking raises [ValueError] unless [xs] has two items. *)
Definition unpack2 {A} (xs : list A) : result (A * A) :=
  match xs with
  | [a; b] => Ok (a, b)
  | [] | [_] => Raise (ValueError "not enough values to unpack")
  | _ => Raise (ValueError "too many values to unpack")
  end.

(** [BasicAuth.current_user] *)
Definition current_user (request : option Request) : result (option User) :=
  let auth_header := authorization_header request in
  if negb (truthy auth_header) then Ok None
  else
    let base64_part := extract_base64_authorization_header auth_header in
    if negb (truthy base64_part) then Ok None
    else
      bind (decode_base64_authorization_header base64_part) (fun decoded_str =>
      if negb (truthy decoded_str) then Ok None
      else
        bind (unpack2 (extract_user_credentials decoded_str)) (fun '(email, password) =>
        if negb (truthy email) || negb (truthy password) then Ok None
        else Ok (user_object_from_credentials email password))).

End Pipeline.

End BasicAuth.

(** ** The user authentication service ([0x03-user_authentication_service]) *)

Module AuthService.

(** *** [user.py]: the [users] table *)

(** The columns of a row other than its primary key. [email] and
    [hashed_password] are declared [nullable=False], the two tokens
    [nullable=True]. Python's [str] and [bytes] are both strings here. *)
Record Row : Type := mkRow {
  email : string;
  hashed_password : string;
  session_id : option string;
  reset_token : option string
}.

(** A [User] object: a row together with its primary key [id]. *)
Record User : Type := mkUser { id : Z; row :> Row }.

(** The table: rows by primary key, so that no two rows share an [id]. *)
Abbreviation Store := (gmap Z Row).

Inductive column : Type := Id | Email | HashedPassword | SessionId | ResetToken.

Definition column_name (c : column) : string :=
  match c with
  | Id => "id"
  | Email => "email"
  | HashedPassword => "hashed_password"
  | SessionId => "session_id"
  | ResetToken => "reset_token"
  end.

Definition columns : list column := [Id; Email; HashedPassword; SessionId; ResetToken].

Definition as_column (key : string) : option column :=
  List.find (fun c => String.eqb (column_name c) key) columns.

(** What [getattr(User, key)] yields: a column, the string that a class
    attribute holds ([__tablename__] holds ["users"]), or another attribute
    that is not a column. *)
Inductive attribute : Type :=
  | Column (c : column)
  | Text (s : string)
  | NotColumn (name : string).

(** Values passed as keyword arguments. Python's integers are unbounded;
    the statements about an integer that a caller chooses say with [int64]
    that it is one the table can hold. *)
Inductive value : Type := VNone | VInt (z : Z) | VStr (s : string).

(** The integers an [INTEGER] column of SQLite holds: 64 bits, signed. *)
Definition int64 (z : Z) : bool := ((- 2 ^ 63 <=? z) && (z <? 2 ^ 63))%Z.


(** A user id as a caller passes it: an integer, or [None]. *)
Definition id_value (user_id : option Z) : value :=
  match user_id with
  | Some k => VInt k
  | None => VNone
  end.

(** Truth value of a user id: [None] and [0] are falsy. *)
Definition id_truthy (user_id : option Z) : bool :=
  match user_id with
  | Some k => negb (Z.eqb k 0)
  | None => false
  end.

(** The values of the declared type of a column: integers for [id], strings
    for the others; [None], the SQL [NULL], is of every type. *)
Definition typed (c : column) (v : value) : bool :=
  match v, c with
  | VNone, _ => true
  | VInt _, Id => true
  | VInt _, _ => false
  | VStr _, Id => false
  | VStr _, _ => true
  end.

Definition opt_value (o : option string) : value :=
  match o with
  | Some s => VStr s
  | None => VNone
  end.

(** The value a row holds in a column. *)
Definition cell (c : column) (u : User) : value :=
  match c with
  | Id => VInt (id u)
  | Email => VStr (email u)
  | HashedPassword => VStr (hashed_password u)
  | SessionId => opt_value (session_id u)
  | ResetToken => opt_value (reset_token u)
  end.

(** SQL equality between a cell and a value of its column's type: [NULL]
    equals nothing. *)
Definition sql_eq (a b : value) : bool :=
  match a, b with
  | VInt x, VInt y => Z.eqb x y
  | VStr s, VStr t => String.eqb s t
  | _, _ => false
  end.

(** The filter [tuple_] of the columns [in_] the tuple of the values, on one
    row: every column equals its value. *)
Definition tuple_in (conds : list (column * value)) (u : User) : bool :=
  forallb (fun cv => sql_eq (cell (fst cv) u) (snd cv)) conds.

(** What an attribute contributes to the tuple of a filter, on one row: the
    cell of a column, or the string itself, bound as a parameter of the
    statement. *)
Definition operand (a : attribute) (u : User) : value :=
  match a with
  | Column c => cell c u
  | Text s => VStr s
  | NotColumn _ => VNone
  end.

(** The filters a scan of the table decides: a column with a value of its
    declared type, or a string. *)
Definition comparable (av : attribute * value) : bool :=
  match av with
  | (Column c, v) => typed c v
  | (Text _, _) => true
  | (NotColumn _, _) => false
  end.

(** The same filter over attributes: every operand equals its value. *)
Definition matches (conds : list (attribute * value)) (u : User) : bool :=
  forallb (fun av => sql_eq (operand (fst av) u) (snd av)) conds.

(** Storing a value of its declared type in a column of a row: [NULL] in a
    column that is not nullable violates its constraint. (Values of another
    type do not reach [assign]: see [plain_columns].) *)
Definition assign (c : column) (v : value) (u : User) : result User :=
  match c, v with
  | Id, VInt z => Ok (mkUser z (row u))
  | Email, VStr s =>
      Ok (mkUser (id u) (mkRow s (hashed_password u) (session_id u) (reset_token u)))
  | HashedPassword, VStr s =>
      Ok (mkUser (id u) (mkRow (email u) s (session_id u) (reset_token u)))
  | SessionId, VStr s =>
      Ok (mkUser (id u) (mkRow (email u) (hashed_password u) (Some s) (reset_token u)))
  | SessionId, VNone =>
      Ok (mkUser (id u) (mkRow (email u) (hashed_password u) None (reset_token u)))
  | ResetToken, VStr s =>
      Ok (mkUser (id u) (mkRow (email u) (hashed_password u) (session_id u) (Some s)))
  | ResetToken, VNone =>
      Ok (mkUser (id u) (mkRow (email u) (hashed_password u) (session_id u) None))
  | (Id | Email | HashedPassword), VNone => Raise IntegrityError
  | _, _ => Raise StatementError
  end.

Fixpoint assign_all (data : list (column * value)) (u : User) : result User :=
  match data with
  | [] => Ok u
  | (c, v) :: rest => bind (assign c v u) (assign_all rest)
  end.

(** The keyword arguments, when each names a column and gives a value of its
    declared type. *)
Fixpoint plain_columns (l : list (attribute * value)) : option (list (column * value)) :=
  match l with
  | [] => Some []
  | (Column c, v) :: rest =>
      if typed c v then cons (c, v) <$> plain_columns rest else None
  | ((Text _ | NotColumn _), _) :: _ => None
  end.

(** Rows in the order a table scan visits them: by ascending [id]. *)
Definition by_id : relation User := fun u v => (id u <= id v)%Z.

#[global] Instance by_id_dec u v : Decision (by_id u v) := Z_le_dec (id u) (id v).

Definition rows (db : Store) : list User :=
  merge_sort by_id ((fun kr => mkUser (fst kr) (snd kr)) <$> map_to_list db).

(** The key of the next inserted row: one more than the largest key, [1] in
    an empty table. (SQLite does so while the largest key is below
    [2 ^ 63 - 1].) *)
Definition next_id (db : Store) : Z :=
  match id <$> rows db with
  | [] => 1
  | k :: ks => foldr Z.max k ks + 1
  end%Z.

(** What the sources leave to SQLAlchemy and SQLite: the attributes [User]
    inherits from the declarative base, and the statements built from no
    column at all, from an inherited attribute, from [__tablename__] in an
    update, or with a value that is not of the declared type of its column
    (which SQLite converts in its own way). *)
Class Orm : Type := {
  inherited_attr : string -> bool;
  opaque_query : list (attribute * value) -> Store -> result User;
  opaque_update : option Z -> list (attribute * value) -> Store -> result unit * Store
}.

(** [bcrypt], a library outside the sources: [gensalt()] draws a salt;
    [hashpw] returns a hash or raises, and [checkpw] returns a boolean or
    raises (a [ValueError] for a password the library refuses, such as one
    over 72 bytes, or for a stored value that is not a hash). *)
Class Bcrypt : Type := {
  salt : Type;
  hashpw : string -> salt -> result string;
  checkpw : string -> string -> result bool
}.

(** *** Calls that read and write the table and may raise *)

Definition M (A : Type) : Type := Store -> result A * Store.

Definition ret {A} (a : A) : M A := fun db => (Ok a, db).

Definition raise {A} (e : exn) : M A := fun db => (Raise e, db).

Definition mbind {A B} (m : M A) (k : A -> M B) : M B :=
  fun db =>
    match m db with
    | (Ok a, db') => k a db'
    | (Raise e, db') => (Raise e, db')
    end.

Definition lift {A} (r : result A) : M A := fun db => (r, db).

(** [try: body except NoResultFound: handler] *)
Definition except_NoResultFound {A} (body : M A) (handler : M A) : M A :=
  fun db =>
    match body db with
    | (Raise NoResultFound, db') => handler db'
    | r => r
    end.

(** [try: body except Exception: handler] *)
Definition except_Exception {A} (body : M A) (handler : M A) : M A :=
  fun db =>
    match body db with
    | (Raise _, db') => handler db'
    | r => r
    end.

Notation "x <- m ;; k" := (mbind m (fun x => k))
  (at level 100, m at next level, right associativity).
Notation "m ;;; k" := (mbind m (fun _ => k))
  (at level 100, right associativity).

Section Service.

Context `{!Orm, !Bcrypt}.

(** *** [db.py] *)

(** [getattr(User, key)], [None] when [hasattr(User, key)] is false. *)
Definition getattr_User (key : string) : option attribute :=
  match as_column key with
  | Some c => Some (Column c)
  | None =>
      if String.eqb key "__tablename__" then Some (Text "users")
      else if inherited_attr key then Some (NotColumn key)
      else None
  end.

(** The loop over the keyword arguments that [find_user_by] and [update_user]
    share: it raises at the first key that is not an attribute of [User]. *)
Fixpoint collect_attrs (invalid : string -> exn) (kwargs : list (string * value))
    : result (list (attribute * value)) :=
  match kwargs with
  | [] => Ok []
  | (key, v) :: rest =>
      match getattr_User key with
      | Some a => bind (collect_attrs invalid rest) (fun l => Ok ((a, v) :: l))
      | None => Raise (invalid key)
      end
  end.

(** [session.add(new_user); session.commit()] *)
Definition commit_new_user (email hashed_password : option string) : M User :=
  fun db =>
    match email, hashed_password with
    | Some e, Some h =>
        let new_user := mkUser (next_id db) (mkRow e h None None) in
        (Ok new_user, <[id new_user := row new_user]> db)
    | _, _ => (Raise IntegrityError, db)
    end.

(** [DB.add_user] *)
Definition add_user (email hashed_password : option string) : M (option User) :=
  except_Exception
    (new_user <- commit_new_user email hashed_password ;; ret (Some new_user))
    (ret None).

(** [DB.find_user_by]: the first row, in the order of the scan, on which the
    tuple of the attributes is the tuple of the values. *)
Definition find_user_by (filters : list (string * value)) : M User :=
  columns_values <-
    lift (collect_attrs (fun key => InvalidRequestError ("Invalid attribute: " +:+ key))
                        filters) ;;
  match columns_values with
  | _ :: _ =>
      if forallb comparable columns_values then
        fun db =>
          match List.find (matches columns_values) (rows db) with
          | Some result => (Ok result, db)
          | None => (Raise NoResultFound, db)
          end
      else fun db => (opaque_query columns_values db, db)
  | [] => fun db => (opaque_query columns_values db, db)
  end.

(** [query(User).filter(User.id == user_id).update(update_data)] followed by
    [commit()]. *)
Definition query_update (user_id : option Z) (update_data : list (attribute * value))
    : M unit :=
  match plain_columns update_data with
  | Some (c :: cs) =>
      fun db =>
        match List.find (fun u => sql_eq (VInt (id u)) (id_value user_id)) (rows db) with
        | None => (Ok tt, db)
        | Some u =>
            match assign_all (c :: cs) u with
            | Raise e => (Raise e, db)
            | Ok u' =>
                if negb (Z.eqb (id u') (id u))
                   && bool_decide (is_Some (db !! id u'))
                then (Raise IntegrityError, db)
                else (Ok tt, <[id u' := row u']> (delete (id u) db))
            end
        end
  | _ => opaque_update user_id update_data
  end.

(** [DB.update_user]. [find_user_by] raises when no row has this id, so the
    test [if user is None: return] never succeeds. *)
Definition update_user (user_id : option Z) (kwargs : list (string * value)) : M unit :=
  user <- find_user_by [("id", id_value user_id)] ;;
  update_data <-
    lift (collect_attrs (fun key => ValueError ("Invalid attribute: " +:+ key)) kwargs) ;;
  query_update user_id update_data.

(** *** [auth.py] *)

(** The methods of [Auth] are annotated with [str] arguments, yet the routes
    pass them fields of the form, which are [None] when missing. Each method
    is given here on arguments that may be [None] (suffix [_any]) and, under
    its own name, on strings. *)

Definition encode_utf8 (s : string) : string := s.

(** [password.encode("utf-8")]; [None] has no such method. *)
Definition encode (password : option string) : result string :=
  match password with
  | Some s => Ok (encode_utf8 s)
  | None => Raise AttributeError
  end.

(** [_hash_password], with the salt that [bcrypt.gensalt()] draws. *)
Definition _hash_password (password : option string) (gensalt : salt) : result string :=
  bind (encode password) (fun data => hashpw data gensalt).

(** An argument inside an f-string. *)
Definition format (o : option string) : string :=
  match o with
  | Some s => s
  | None => "None"
  end.

(** [Auth.register_user] *)
Definition register_user_any (email password : option string) (gensalt : salt)
    : M (option User) :=
  except_NoResultFound
    (find_user_by [("email", opt_value email)] ;;;
     raise (ValueError ("User " +:+ format email +:+ " already exists")))
    (hashed_password <- lift (_hash_password password gensalt) ;;
     add_user email (Some hashed_password)).

Definition register_user (email password : string) (gensalt : salt) : M (option User) :=
  register_user_any (Some email) (Some password) gensalt.

(** [Auth.valid_login] *)
Definition valid_login_any (email password : option string) : M bool :=
  except_NoResultFound
    (user <- find_user_by [("email", opt_value email)] ;;
     lift (bind (encode password) (fun data => checkpw data (hashed_password user))))
    (ret false).

Definition valid_login (email password : string) : M bool :=
  valid_login_any (Some email) (Some password).

(** [Auth.create_session], with the identifier that [uuid4()] draws. *)
Definition create_session_any (email : option string) (uuid4 : string)
    : M (option string) :=
  found <- except_NoResultFound
             (user <- find_user_by [("email", opt_value email)] ;; ret (Some user))
             (ret None) ;;
  match found with
  | None => ret None
  | Some user =>
      let session_id := uuid4 in
      update_user (Some (id user)) [("session_id", VStr session_id)] ;;;
      ret (Some session_id)
  end.

Definition create_session (email : string) (uuid4 : string) : M (option string) :=
  create_session_any (Some email) uuid4.

(** [Auth.get_user_from_session_id] *)
Definition get_user_from_session_id (session_id : option string) : M (option User) :=
  match session_id with
  | Some (String c s) =>
      except_NoResultFound
        (user <- find_user_by [("session_id", VStr (String c s))] ;; ret (Some user))
        (ret None)
  | _ => ret None
  end.

(** [Auth.destroy_session] *)
Definition destroy_session (user_id : option Z) : M unit :=
  if id_truthy user_id then update_user user_id [("session_id", VNone)]
  else ret tt.

(** [Auth.get_reset_password_token], with the identifier that [uuid4()] draws. *)
Definition get_reset_password_token_any (email : option string) (uuid4 : string)
    : M string :=
  user <- except_NoResultFound
            (find_user_by [("email", opt_value email)])
            (raise (ValueError "User not found")) ;;
  let reset_token := uuid4 in
  update_user (Some (id user)) [("reset_token", VStr reset_token)] ;;;
  ret reset_token.

Definition get_reset_password_token (email : string) (uuid4 : string) : M string :=
  get_reset_password_token_any (Some email) uuid4.

(** [Auth.update_password] *)
Definition update_password_any (reset_token password : option string) (gensalt : salt)
    : M unit :=
  user <- except_NoResultFound
            (find_user_by [("reset_token", opt_value reset_token)])
            (raise (ValueError "Invalid reset token")) ;;
  hashed_password <- lift (_hash_password password gensalt) ;;
  update_user (Some (id user))
    [("hashed_password", VStr hashed_password); ("reset_token", VNone)].

Definition update_password (reset_token password : string) (gensalt : salt) : M unit :=
  update_password_any (Some reset_token) (Some password) gensalt.

(** *** Notions the statements below use *)

(** The keyword arguments read as columns, when every key names one and
    every value is of the declared type of its column. *)
Fixpoint columns_of (kwargs : list (string * value)) : option (list (column * value)) :=
  match kwargs with
  | [] => Some []
  | (key, v) :: rest =>
      match as_column key with
      | Some c => if typed c v then cons (c, v) <$> columns_of rest else None
      | None => None
      end
  end.

Definition as_attribute (cv : column * value) : attribute * value :=
  (Column (fst cv), snd cv).


(** [db'] is [db] with one row replaced by a row with the same email. *)
Definition replaces_row (db db' : Store) : Prop :=
  exists k r r', db !! k = Some r /\ email r' = email r /\ db' = <[k := r']> db.


(** One call of a method of [Auth] that may write the table, on any
    arguments. *)
Inductive service_step : Store -> Store -> Prop :=
  | step_register_user email password gensalt db :
      service_step db (snd (register_user_any email password gensalt db))
  | step_create_session email uuid4 db :
      service_step db (snd (create_session_any email uuid4 db))
  | step_destroy_session user_id db :
      service_step db (snd (destroy_session user_id db))
  | step_get_reset_password_token email uuid4 db :
      service_step db (snd (get_reset_password_token_any email uuid4 db))
  | step_update_password reset_token password gensalt db :
      service_step db (snd (update_password_any reset_token password gensalt db)).


End Service.

End AuthService.

(** ** The request hook of the Basic-authentication API ([0x01-Basic_authentication/api/v1/app.py]) *)

Module BasicAuthApp.

Import BasicAuth.

(** The object the module stores in [auth]: an instance of [Auth] or of
    [BasicAuth]. *)
Inductive auth_object : Type := AuthBase | AuthBasic.

(** [getenv('AUTH_TYPE', 'auth')], from the variable when it is set. *)
Definition getenv_AUTH_TYPE (variable : option string) : string :=
  match variable with
  | Some v => v
  | None => "auth"
  end.

(** The choice of [auth] at import time; [None] for any other type. *)
Definition make_auth (auth_type : string) : option auth_object :=
  if String.eqb auth_type "auth" then Some AuthBase
  else if String.eqb auth_type "basic_auth" then Some AuthBasic
  else None.

Definition excluded_paths : list string :=
  ["/api/v1/status/"; "/api/v1/unauthorized/"; "/api/v1/forbidden/"].

(** What the hook does to the request: it lets it through, or aborts with a
    status. *)
Inductive outcome : Type := Proceed | Abort (status : nat).

Section Hook.

Context `{!Codec, !UserModel}.

(** [auth.current_user(request)]: [Auth.current_user] returns [None],
    [BasicAuth] overrides it. *)
Definition auth_current_user (auth : auth_object) (request : Request)
    : result (option User) :=
  match auth with
  | AuthBase => Ok None
  | AuthBasic => current_user (Some request)
  end.

(** [authenticate_user], run before every request, on [request.path] and the
    request. *)
Definition authenticate_user (auth : option auth_object) (path : string)
    (request : Request) : result outcome :=
  match auth with
  | None => Ok Proceed
  | Some auth =>
      if require_auth (Some path) (Some excluded_paths) then
        let auth_header := authorization_header (Some request) in
        bind (auth_current_user auth request) (fun user =>
          match auth_header with
          | None => Ok (Abort 401)
          | Some _ =>
              match user with
              | None => Ok (Abort 403)
              | Some _ => Ok Proceed
              end
          end)
      else Ok Proceed
  end.

End Hook.

End BasicAuthApp.

(** ** The routes of the authentication service ([0x03-user_authentication_service/app.py]) *)

Module App.

Import AuthService.

(** A value of a JSON body: a string, or [null] for [None]. *)
Inductive json : Type := JNull | JStr (s : string).

Definition json_of (o : option string) : json :=
  match o with
  | Some s => JStr s
  | None => JNull
  end.

(** What a route returns: a JSON body with a status and the cookies it sets,
    an [abort] with a status, or a redirection. *)
Inductive response : Type :=
  | Json (status : nat) (body : list (string * json))
         (cookies : list (string * option string))
  | Aborted (status : nat)
  | Redirect (location : string).

(** [try: body except ValueError: handler] *)
Definition except_ValueError {A} (body : M A) (handler : M A) : M A :=
  fun db =>
    match body db with
    | (Raise (ValueError _), db') => handler db'
    | r => r
    end.

Section Routes.

Context `{!Orm, !Bcrypt}.

(** [GET /] *)
Definition index : M response := ret (Json 200 [("message", JStr "Bienvenue")] []).

(** [POST /users], on the fields [email] and [password] of the form; a
    field that the form does not have is [None]. *)
Definition users (email password : option string) (gensalt : salt) : M response :=
  except_ValueError
    (register_user_any email password gensalt ;;;
     ret (Json 200 [("email", json_of email); ("message", JStr "user created")] []))
    (ret (Json 400 [("message", JStr "email already registered")] [])).

(** [POST /sessions], on the fields [email] and [password] of the form. *)
Definition login (email password : option string) (uuid4 : string) : M response :=
  valid <- valid_login_any email password ;;
  if negb valid then ret (Aborted 401)
  else
    session_id <- create_session_any email uuid4 ;;
    ret (Json 200 [("email", json_of email); ("message", JStr "logged in")]
              [("session_id", session_id)]).

(** [DELETE /sessions], on the cookie [session_id]. *)
Definition logout (session_id : option string) : M response :=
  user <- get_user_from_session_id session_id ;;
  match user with
  | None => ret (Aborted 403)
  | Some user => destroy_session (Some (id user)) ;;; ret (Redirect "/")
  end.

(** [GET /profile], on the cookie [session_id]. *)
Definition profile (session_id : option string) : M response :=
  user <- get_user_from_session_id session_id ;;
  match user with
  | None => ret (Aborted 403)
  | Some user => ret (Json 200 [("email", JStr (email user))] [])
  end.

(** [POST /reset_password], on the field [email] of the form. *)
Definition get_reset_password_token (email : option string) (uuid4 : string)
    : M response :=
  except_ValueError
    (reset_token <- get_reset_password_token_any email uuid4 ;;
     ret (Json 200 [("email", json_of email); ("reset_token", JStr reset_token)] []))
    (ret (Aborted 403)).

(** [PUT /reset_password], on the fields [email], [reset_token] and
    [new_password] of the form. *)
Definition update_password (email reset_token new_password : option string)
    (gensalt : salt) : M response :=
  except_ValueError
    (update_password_any reset_token new_password gensalt ;;;
     ret (Json 200 [("email", json_of email); ("message", JStr "Password updated")] []))
    (ret (Aborted 403)).

End Routes.

End App.

(** A row with its session identifier replaced. *)
Definition with_session (o : option string) (r : AuthService.Row) : AuthService.Row :=
  AuthService.mkRow (AuthService.email r) (AuthService.hashed_password r) o
                    (AuthService.reset_token r).

(** ** Instances of the library interfaces, to run the embedding *)

Module Instances.

(** A strict base64 decoder: the standard alphabet, [=] padding at the end
    only; it raises on anything else. *)
Definition b64_digit (c : ascii) : option N :=
  let n := N_of_ascii c in
  if (65 <=? n)%N && (n <=? 90)%N then Some (n - 65)%N
  else if (97 <=? n)%N && (n <=? 122)%N then Some (n - 71)%N
  else if (48 <=? n)%N && (n <=? 57)%N then Some (n + 4)%N
  else if (n =? 43)%N then Some 62%N
  else if (n =? 47)%N then Some 63%N
  else None.

Definition byte_of (n : N) : ascii := ascii_of_N (n mod 256).

Fixpoint b64_groups (fuel : nat) (s : string) : result string :=
  match fuel with
  | O => Raise BinasciiError
  | S fuel' =>
      match s with
      | EmptyString => Ok EmptyString
      | String a (String b (String c (String d rest))) =>
          match b64_digit a, b64_digit b with
          | Some x, Some y =>
              let b1 := byte_of (x * 4 + y / 16) in
              match b64_digit c, b64_digit d, rest with
              | Some z, Some w, _ =>
                  bind (b64_groups fuel' rest) (fun tl =>
                    Ok (String b1 (String (byte_of (y * 16 + z / 4))
                                          (String (byte_of (z * 64 + w)) tl))))
              | Some z, None, EmptyString =>
                  if Ascii.eqb d "=" then
                    Ok (String b1 (String (byte_of (y * 16 + z / 4)) EmptyString))
                  else Raise BinasciiError
              | None, None, EmptyString =>
                  if Ascii.eqb c "=" && Ascii.eqb d "=" then Ok (String b1 EmptyString)
                  else Raise BinasciiError
              | _, _, _ => Raise BinasciiError
              end
          | _, _ => Raise BinasciiError
          end
      | _ => Raise BinasciiError
      end
  end.

(** Decoding of ASCII text; any byte above 127 is refused. *)
Fixpoint ascii_decode (s : string) : result string :=
  match s with
  | EmptyString => Ok EmptyString
  | String c rest =>
      if (N_of_ascii c <? 128)%N then bind (ascii_decode rest) (fun r => Ok (String c r))
      else Raise UnicodeDecodeError
  end.

#[export] Instance strict_codec : BasicAuth.Codec := {|
  BasicAuth.b64decode := fun s => b64_groups (S (String.length s)) s;
  BasicAuth.utf8_decode := ascii_decode
|}.

(** A user model with one user, [a@example.com] with password [pw1]. *)
#[export] Instance one_user : BasicAuth.UserModel := {|
  BasicAuth.User := string;
  BasicAuth.User_search_email :=
    fun e => if String.eqb e "a@example.com" then ["a@example.com"] else [];
  BasicAuth.is_valid_password := fun _ pwd => String.eqb pwd "pw1"
|}.

(** What [bcrypt] 5 raises for a password over 72 bytes. *)
Definition password_too_long : exn :=
  ValueError ("password cannot be longer than 72 bytes, " +:+
              "truncate manually if necessary (e.g. my_password[:72])").

(** A stand-in for [bcrypt] with its limit on the password: the hash is the
    salt character followed by the password, and checking compares the
    rest; a password over 72 bytes is refused, and so is the check against
    an empty stored value. *)
#[export] Instance salted : AuthService.Bcrypt := {|
  AuthService.salt := ascii;
  AuthService.hashpw := fun p s =>
    if (72 <? String.length p)%nat then Raise password_too_long else Ok (String s p);
  AuthService.checkpw := fun p h =>
    if (72 <? String.length p)%nat then Raise password_too_long
    else match h with
         | String _ body => Ok (String.eqb p body)
         | EmptyString => Raise (ValueError "Invalid salt")
         end
|}.

(** A password of 73 bytes. *)
Definition long_password : string := replicate_char 73 "a".

(** [s[:n]] *)
Fixpoint slice_to (n : nat) (s : string) : string :=
  match n, s with
  | S n', String c s' => String c (slice_to n' s')
  | _, _ => EmptyString
  end.

(** The same stand-in with the behaviour of [bcrypt] before its release 5:
    a password over 72 bytes is cut to its first 72 bytes. *)
Definition truncating : AuthService.Bcrypt := {|
  AuthService.salt := ascii;
  AuthService.hashpw := fun p s => Ok (String s (slice_to 72 p));
  AuthService.checkpw := fun p h =>
    match h with
    | String _ body => Ok (String.eqb (slice_to 72 p) body)
    | EmptyString => Raise (ValueError "Invalid salt")
    end
|}.

(** An ORM in which [User] inherits [metadata], and every statement that
    the sources do not determine raises. *)
#[export] Instance strict_orm : AuthService.Orm := {|
  AuthService.inherited_attr := fun key => String.eqb key "metadata";
  AuthService.opaque_query := fun _ _ => Raise StatementError;
  AuthService.opaque_update := fun _ _ db => (Raise StatementError, db)
|}.

(** A table with one account, [a@example.com] with password [pw1] hashed
    under the salt [s]. *)
Definition alice : AuthService.Row :=
  AuthService.mkRow "a@example.com" "spw1" None None.

Definition one_account : gmap Z AuthService.Row := {[ 1%Z := alice ]}.

End Instances.

(** ** Properties of the string operations *)

Section StringFacts.

(** [startswith] decides "is a prefix of". *)
Lemma startswith_spec (s pre : string) :
  startswith s pre = true <-> exists rest, s = pre +:+ rest.
Proof.
  revert s; induction pre as [|a pre IH]; intros s; simpl.
  - split; [intros _; now exists s | reflexivity].
  - destruct s as [|b s].
    + split; [discriminate | intros [rest H]; discriminate].
    + rewrite andb_true_iff, Ascii.eqb_eq, IH. split.
      * intros [-> [rest ->]]. now exists rest.
      * intros [rest H]. injection H as -> ->. split; [reflexivity | now exists rest].
Qed.

(** What [rstrip] removes is a run of the stripped character. *)
Lemma rstrip_removes (ch : ascii) (s : string) :
  exists n, s = rstrip ch s +:+ replicate_char n ch.
Proof.
  induction s as [|c s [n IH]]; simpl.
  - now exists 0.
  - destruct (rstrip ch s) as [|d r] eqn:E; simpl in IH.
    + destruct (Ascii.eqb c ch) eqn:Ec.
      * apply Ascii.eqb_eq in Ec as ->. exists (S n). simpl. congruence.
      * exists n. simpl. congruence.
    + exists n. simpl. congruence.
Qed.

(** What [rstrip] leaves does not end with the stripped character. *)
Lemma rstrip_no_trailing (ch : ascii) (s t : string) :
  rstrip ch s <> t +:+ String ch "".
Proof.
  revert t; induction s as [|c s IH]; intros t; simpl.
  - destruct t; discriminate.
  - destruct (rstrip ch s) as [|d r] eqn:E.
    + destruct (Ascii.eqb c ch) eqn:Ec.
      * destruct t; discriminate.
      * destruct t as [|c' t]; simpl.
        -- intros H. injection H as ->. now rewrite Ascii.eqb_refl in Ec.
        -- destruct t; discriminate.
    + destruct t as [|c' t]; simpl; [discriminate |].
      intros H. injection H as _ H. exact (IH t H).
Qed.

(** [split1] yields two parts exactly when the separator occurs. *)
Lemma split1_contains (sep : ascii) (s : string) :
  contains sep s = true -> exists a b, split1 sep s = [a; b] /\ s = a +:+ String sep b.
Proof.
  induction s as [|c s IH]; simpl; [discriminate |].
  destruct (Ascii.eqb c sep) eqn:Ec; simpl.
  - intros _. apply Ascii.eqb_eq in Ec as ->. now exists "", s.
  - intros H. destruct (IH H) as (a & b & -> & ->). now exists (String c a), b.
Qed.

End StringFacts.

(** ** Properties of Basic authentication *)

Section BasicAuthProperties.

Import BasicAuth.
Context {codec : Codec} {users : UserModel}.

Lemma existsb_startswith (p : string) (ex : list string) :
  existsb (fun e => startswith p e) ex = true <->
  exists e rest, e ∈ ex /\ p = e +:+ rest.
Proof.
  rewrite existsb_exists. split.
  - intros (e & Hin & Hs). apply startswith_spec in Hs as [rest ->].
    exists e, rest. split; [now apply list_elem_of_In | reflexivity].
  - intros (e & rest & Hin & ->). exists e. split; [now apply list_elem_of_In |].
    apply startswith_spec. now exists rest.
Qed.

(** C6, as the code has it. [require_auth] answers [True] when [path] is
    [None] and when [excluded_paths] is [None] or empty. Otherwise it
    normalizes the trailing slash of [path] alone (all trailing slashes
    removed, one appended, so the result ends with exactly one slash) and
    answers [False] exactly when the normalized path starts with one of the
    excluded entries, taken as they are. The three examples of the
    specification hold. *)
Theorem require_auth_correct :
  (forall ex, require_auth None ex = true) /\
  (forall p, require_auth p None = true) /\
  (forall p, require_auth p (Some []) = true) /\
  (forall p, exists n,
      p = rstrip "/" p +:+ replicate_char n "/" /\
      normalize_slash p = rstrip "/" p +:+ "/" /\
      forall t, rstrip "/" p <> t +:+ "/") /\
  (forall p ex,
      require_auth (Some p) (Some ex) = false <->
      exists e rest, e ∈ ex /\ normalize_slash p = e +:+ rest) /\
  require_auth (Some "/api/v1/status/") (Some ["/api/v1/status/"]) = false /\
  require_auth (Some "/api/v1/status") (Some ["/api/v1/status/"]) = false /\
  require_auth (Some "/api/v1/other/") (Some ["/api/v1/status/"]) = true.
Proof.
  repeat apply conj; try reflexivity.
  - intros p. now destruct p.
  - intros p. now destruct p.
  - intros p. destruct (rstrip_removes "/" p) as [n Hn]. exists n.
    repeat apply conj; [exact Hn | reflexivity | apply rstrip_no_trailing].
  - intros p ex. split.
    + destruct ex as [|e0 ex]; [discriminate |].
      unfold require_auth; cbn [length Nat.eqb]. intros Hneg.
      apply negb_false_iff in Hneg. now apply existsb_startswith in Hneg.
    + intros Hex. destruct ex as [|e0 ex].
      * destruct Hex as (e & _ & Hin & _). now apply elem_of_nil in Hin.
      * unfold require_auth; cbn [length Nat.eqb].
        apply negb_false_iff. now apply existsb_startswith.
Qed.

(** C6, as the specification words it, fails on the code: an empty path is
    normalized to ["/"] and then matched like any other, and the excluded
    entries are not normalized. *)
Lemma require_auth_differs_from_spec :
  require_auth (Some "") (Some ["/"]) = false /\
  requires_auth_spec "" ["/"] = true /\
  require_auth (Some "/api/v1/status") (Some ["/api/v1/stat"]) = false /\
  requires_auth_spec "/api/v1/status" ["/api/v1/stat"] = true.
Proof. repeat split. Qed.

Lemma extract_user_credentials_pair (d : option string) :
  exists a b, extract_user_credentials d = [a; b].
Proof.
  destruct d as [d|]; simpl; [| now exists None, None].
  destruct (contains ":" d) eqn:E; simpl; [| now exists None, None].
  destruct (split1_contains _ _ E) as (a & b & -> & _). now exists (Some a), (Some b).
Qed.

Lemma decode_base64_never_raises (b : option string) :
  exists r, decode_base64_authorization_header b = Ok r.
Proof.
  destruct b as [b|]; simpl; [| now exists None].
  destruct (b64decode b) as [bytes|e]; simpl; [| now exists None].
  destruct (utf8_decode bytes) as [text|e]; simpl; [now exists (Some text) | now exists None].
Qed.

(** C7. Every step of the Basic-Auth pipeline turns failure into [None]: a
    header that does not start with ["Basic "], a base64 or UTF-8 decoding
    that raises, a decoded text without a colon (the pair of [None]s).
    [current_user] runs the steps in order and answers [None] at the first
    one that yields nothing; it never raises, so it always returns a user or
    [None]. *)
Theorem current_user_total :
  (forall h, startswith h "Basic " = false ->
      extract_base64_authorization_header (Some h) = None) /\
  (forall b e, b64decode b = Raise e ->
      decode_base64_authorization_header (Some b) = Ok None) /\
  (forall b bytes e, b64decode b = Ok bytes -> utf8_decode bytes = Raise e ->
      decode_base64_authorization_header (Some b) = Ok None) /\
  (forall d, contains ":" d = false ->
      extract_user_credentials (Some d) = [None; None]) /\
  (forall request, truthy (authorization_header request) = false ->
      current_user request = Ok None) /\
  (forall request,
      truthy (extract_base64_authorization_header (authorization_header request)) = false ->
      current_user request = Ok None) /\
  (forall request text,
      decode_base64_authorization_header
        (extract_base64_authorization_header (authorization_header request)) = Ok text ->
      truthy text = false ->
      current_user request = Ok None) /\
  (forall request text email password,
      decode_base64_authorization_header
        (extract_base64_authorization_header (authorization_header request)) = Ok text ->
      extract_user_credentials text = [email; password] ->
      truthy email = false \/ truthy password = false ->
      current_user request = Ok None) /\
  (forall request text email password,
      truthy (authorization_header request) = true ->
      truthy (extract_base64_authorization_header (authorization_header request)) = true ->
      decode_base64_authorization_header
        (extract_base64_authorization_header (authorization_header request)) = Ok text ->
      truthy text = true ->
      extract_user_credentials text = [email; password] ->
      truthy email = true -> truthy password = true ->
      current_user request = Ok (user_object_from_credentials email password)) /\
  (forall request, exists user, current_user request = Ok user).
Proof.
  repeat apply conj.
  - intros h Hh. unfold extract_base64_authorization_header. now rewrite Hh.
  - intros b e Hb. unfold decode_base64_authorization_header. now rewrite Hb.
  - intros b bytes e Hb Hu. unfold decode_base64_authorization_header.
    rewrite Hb. simpl. now rewrite Hu.
  - intros d Hd. unfold extract_user_credentials. now rewrite Hd.
  - intros request Hh. unfold current_user. now rewrite Hh.
  - intros request Hb. unfold current_user. rewrite Hb.
    now destruct (truthy (authorization_header request)).
  - intros request text Hd Ht. unfold current_user. rewrite Hd. simpl. rewrite Ht.
    now destruct (truthy (authorization_header request)),
      (truthy (extract_base64_authorization_header (authorization_header request))).
  - intros request text email password Hd Hc Hf. unfold current_user.
    rewrite Hd. simpl. rewrite Hc. simpl.
    assert (negb (truthy email) || negb (truthy password) = true) as ->
      by (destruct Hf as [-> | ->]; [reflexivity | apply orb_true_r]).
    now destruct (truthy (authorization_header request)),
      (truthy (extract_base64_authorization_header (authorization_header request))),
      (truthy text).
  - intros request text email password Hh Hb Hd Ht Hc He Hp. unfold current_user.
    rewrite Hh, Hb, Hd. simpl. rewrite Ht, Hc. simpl. now rewrite He, Hp.
  - intros request. unfold current_user.
    destruct (truthy (authorization_header request)); simpl; [| now exists None].
    destruct (truthy (extract_base64_authorization_header _)); simpl; [| now exists None].
    destruct (decode_base64_never_raises
                (extract_base64_authorization_header (authorization_header request)))
      as [text ->]. simpl.
    destruct (truthy text); simpl; [| now exists None].
    destruct (extract_user_credentials_pair text) as (a & b & ->). simpl.
    destruct (negb (truthy a) || negb (truthy b)); eauto.
Qed.

(** The two header examples of the specification, run with a strict base64
    decoder and a user model holding the one account. *)
Example current_user_examples :
  let request h := Some {| headers_get := fun key =>
                             if String.eqb key "Authorization" then Some h else None |} in
  @current_user Instances.strict_codec Instances.one_user
    (request "Basic YUBleGFtcGxlLmNvbTpwdzE=") = Ok (Some "a@example.com") /\
  @current_user Instances.strict_codec Instances.one_user
    (request "Bearer xyz") = Ok None /\
  @current_user Instances.strict_codec Instances.one_user
    (request "Basic !!!") = Ok None /\
  @current_user Instances.strict_codec Instances.one_user None = Ok None.
Proof. repeat split. Qed.

End BasicAuthProperties.

(** ** Properties of the table *)

Section StoreFacts.

Import AuthService.

Lemma find_unique {A} (P : A -> bool) (l : list A) (x : A) :
  x ∈ l -> P x = true -> (forall y, y ∈ l -> P y = true -> y = x) ->
  List.find P l = Some x.
Proof.
  induction l as [|a l IH]; intros Hin HP Huniq.
  - now apply elem_of_nil in Hin.
  - simpl. destruct (P a) eqn:Ea.
    + f_equal. apply Huniq; [left | exact Ea].
    + apply elem_of_cons in Hin as [-> | Hin]; [congruence |].
      apply IH; [exact Hin | exact HP |]. intros y Hy. apply Huniq. now right.
Qed.

Lemma find_absent {A} (P : A -> bool) (l : list A) :
  (forall y, y ∈ l -> P y = false) -> List.find P l = None.
Proof.
  induction l as [|a l IH]; intros H; [reflexivity |].
  simpl. rewrite (H a) by left. apply IH. intros y Hy. apply H. now right.
Qed.

Lemma find_pointwise {A} (P Q : A -> bool) (l : list A) :
  (forall x, P x = Q x) -> List.find P l = List.find Q l.
Proof.
  intros H. induction l as [|a l IH]; [reflexivity |]. simpl. now rewrite H, IH.
Qed.

Lemma find_found {A} (P : A -> bool) (l : list A) (x : A) :
  List.find P l = Some x -> x ∈ l /\ P x = true.
Proof.
  intros H. apply find_some in H as [Hin HP]. split; [now apply list_elem_of_In | exact HP].
Qed.

(** The rows of the scan are the entries of the table. *)
Lemma elem_of_rows (db : Store) (u : User) :
  u ∈ rows db <-> db !! id u = Some (row u).
Proof.
  unfold rows. rewrite merge_sort_Permutation, list_elem_of_fmap. split.
  - intros ([k r] & -> & Hin). simpl. now apply elem_of_map_to_list in Hin.
  - intros H. exists (id u, row u). split; [now destruct u |].
    now apply elem_of_map_to_list.
Qed.

Lemma rows_lookup (db : Store) (k : Z) (r : Row) :
  db !! k = Some r -> mkUser k r ∈ rows db.
Proof. intros H. now apply elem_of_rows. Qed.

Lemma foldr_max_ge (k : Z) (ks : list Z) (x : Z) :
  x ∈ k :: ks -> (x <= foldr Z.max k ks)%Z.
Proof.
  induction ks as [|a ks IH]; simpl; intros Hin.
  - apply list_elem_of_singleton in Hin as ->. lia.
  - apply elem_of_cons in Hin as [-> | Hin].
    + specialize (IH ltac:(left)). lia.
    + apply elem_of_cons in Hin as [-> | Hin]; [lia |].
      specialize (IH ltac:(now right)). lia.
Qed.

(** Every key of the table is below the next key. *)
Lemma next_id_above (db : Store) (k : Z) (r : Row) :
  db !! k = Some r -> (k < next_id db)%Z.
Proof.
  intros H. apply rows_lookup in H.
  apply (list_elem_of_fmap_2 id) in H. simpl in H.
  unfold next_id. destruct (id <$> rows db) as [|k0 ks].
  - now apply elem_of_nil in H.
  - apply foldr_max_ge in H. lia.
Qed.

Lemma next_id_fresh (db : Store) : db !! next_id db = None.
Proof.
  destruct (db !! next_id db) as [r|] eqn:E; [| reflexivity].
  apply next_id_above in E. lia.
Qed.

Lemma tuple_in_single (c : column) (v : value) (u : User) :
  tuple_in [(c, v)] u = sql_eq (cell c u) v.
Proof. unfold tuple_in. simpl. apply andb_true_r. Qed.

Lemma sql_eq_opt (o : option string) (t : string) :
  sql_eq (opt_value o) (VStr t) = true <-> o = Some t.
Proof.
  destruct o as [s|]; simpl; [| split; discriminate].
  rewrite String.eqb_eq. split; congruence.
Qed.

(** Lookup by primary key. *)
Lemma find_by_id (db : Store) (k : Z) :
  List.find (tuple_in [(Id, VInt k)]) (rows db) = mkUser k <$> db !! k.
Proof.
  destruct (db !! k) as [r|] eqn:E; simpl.
  - apply find_unique.
    + now apply rows_lookup.
    + rewrite tuple_in_single. simpl. apply Z.eqb_refl.
    + intros [k' r'] Hin Hk. rewrite tuple_in_single in Hk. simpl in Hk.
      apply Z.eqb_eq in Hk as ->. apply elem_of_rows in Hin. simpl in Hin. congruence.
  - apply find_absent. intros [k' r'] Hin. rewrite tuple_in_single. simpl.
    apply Z.eqb_neq. intros ->. apply elem_of_rows in Hin. simpl in Hin. congruence.
Qed.

Lemma find_row_id (db : Store) (k : Z) :
  List.find (fun u => sql_eq (VInt (id u)) (VInt k)) (rows db) = mkUser k <$> db !! k.
Proof.
  rewrite <- find_by_id. apply find_pointwise. intros u. now rewrite tuple_in_single.
Qed.

Lemma find_row_not_int (db : Store) (v : value) :
  (forall k, v <> VInt k) ->
  List.find (fun u => sql_eq (VInt (id u)) v) (rows db) = None /\
  List.find (tuple_in [(Id, v)]) (rows db) = None.
Proof.
  intros Hv. split; apply find_absent; intros u _; rewrite ?tuple_in_single;
    destruct v; simpl; try reflexivity; now destruct (Hv z).
Qed.

(** Lookup by a column that identifies one row. *)
Lemma find_by_column_unique (db : Store) (c : column) (v : value) (k : Z) (r : Row) :
  db !! k = Some r ->
  sql_eq (cell c (mkUser k r)) v = true ->
  (forall k' r', db !! k' = Some r' -> sql_eq (cell c (mkUser k' r')) v = true -> k' = k) ->
  List.find (tuple_in [(c, v)]) (rows db) = Some (mkUser k r).
Proof.
  intros Hk Hv Huniq. apply find_unique.
  - now apply rows_lookup.
  - now rewrite tuple_in_single.
  - intros [k' r'] Hin Hm. rewrite tuple_in_single in Hm.
    apply elem_of_rows in Hin. simpl in Hin.
    assert (k' = k) as -> by (eapply Huniq; eauto). congruence.
Qed.

Lemma find_by_column_absent (db : Store) (c : column) (v : value) :
  (forall k r, db !! k = Some r -> sql_eq (cell c (mkUser k r)) v = false) ->
  List.find (tuple_in [(c, v)]) (rows db) = None.
Proof.
  intros H. apply find_absent. intros [k r] Hin. rewrite tuple_in_single.
  apply elem_of_rows in Hin. now apply H.
Qed.

End StoreFacts.

(** ** Properties of [db.py] *)

Section DbFacts.

Import AuthService.
Context {orm : Orm} {bcrypt : Bcrypt}.

Lemma as_column_name (c : column) : as_column (column_name c) = Some c.
Proof. now destruct c. Qed.


Lemma getattr_User_column (key : string) (c : column) :
  as_column key = Some c -> getattr_User key = Some (Column c).
Proof. intros H. unfold getattr_User. now rewrite H. Qed.

Lemma collect_attrs_columns (invalid : string -> exn) kwargs cols :
  columns_of kwargs = Some cols ->
  collect_attrs invalid kwargs = Ok (as_attribute <$> cols) /\
  plain_columns (as_attribute <$> cols) = Some cols.
Proof.
  revert cols; induction kwargs as [|[key v] kwargs IH]; intros cols; simpl.
  - now intros [= <-].
  - destruct (as_column key) as [c|] eqn:Ec; [| discriminate].
    destruct (typed c v) eqn:Et; [| discriminate].
    destruct (columns_of kwargs) as [cols'|]; [| discriminate].
    intros [= <-]. destruct (IH cols' eq_refl) as [IHc IHp].
    rewrite (getattr_User_column _ _ Ec), IHc, fmap_cons.
    cbn [plain_columns as_attribute fst snd bind]. now rewrite Et, IHp.
Qed.


Lemma columns_of_typed kwargs cols :
  columns_of kwargs = Some cols -> Forall (fun cv => typed (fst cv) (snd cv) = true) cols.
Proof.
  revert cols; induction kwargs as [|[key v] kwargs IH]; intros cols; simpl.
  - intros [= <-]. constructor.
  - destruct (as_column key) as [c|]; [| discriminate].
    destruct (typed c v) eqn:Et; [| discriminate].
    destruct (columns_of kwargs) as [cols'|]; [| discriminate].
    intros [= <-]. constructor; [exact Et | now apply IH].
Qed.

Lemma comparable_columns (cols : list (column * value)) :
  Forall (fun cv => typed (fst cv) (snd cv) = true) cols ->
  forallb comparable (as_attribute <$> cols) = true.
Proof.
  induction 1 as [|[c v] cols Ht _ IH]; [reflexivity |].
  rewrite fmap_cons. simpl in *. now rewrite Ht, IH.
Qed.

Lemma matches_columns (cols : list (column * value)) (u : User) :
  matches (as_attribute <$> cols) u = tuple_in cols u.
Proof.
  unfold matches, tuple_in. induction cols as [|[c v] cols IH]; [reflexivity |].
  rewrite fmap_cons. simpl. now rewrite IH.
Qed.

(** [find_user_by] with filters on columns only: the first row, in the order
    of the scan, that equals every value. *)
Lemma find_user_by_columns filters cols db :
  columns_of filters = Some cols -> cols <> [] ->
  find_user_by filters db =
  match List.find (tuple_in cols) (rows db) with
  | Some u => (Ok u, db)
  | None => (Raise NoResultFound, db)
  end.
Proof.
  intros Hc Hne. unfold find_user_by, mbind, lift.
  destruct (collect_attrs_columns
              (fun key => InvalidRequestError ("Invalid attribute: " +:+ key)) _ _ Hc)
    as [-> _].
  rewrite (comparable_columns _ (columns_of_typed _ _ Hc)).
  destruct cols as [|cv cols]; [easy |]. rewrite fmap_cons.
  now rewrite (find_pointwise _ _ _ (matches_columns (cv :: cols))).
Qed.

(** [update_user] with keyword arguments on columns only. *)
Lemma update_user_columns user_id kwargs cols db :
  columns_of kwargs = Some cols -> cols <> [] ->
  update_user user_id kwargs db =
  match user_id with
  | Some k =>
      match db !! k with
      | Some r =>
          match assign_all cols (mkUser k r) with
          | Raise e => (Raise e, db)
          | Ok u' =>
              if negb (Z.eqb (id u') k) && bool_decide (is_Some (db !! id u'))
              then (Raise IntegrityError, db)
              else (Ok tt, <[id u' := row u']> (delete k db))
          end
      | None => (Raise NoResultFound, db)
      end
  | None => (Raise NoResultFound, db)
  end.
Proof.
  intros Hc Hne.
  destruct (collect_attrs_columns
              (fun key => ValueError ("Invalid attribute: " +:+ key)) _ _ Hc) as [Hcoll Hp].
  unfold update_user, mbind, lift. rewrite Hcoll.
  rewrite (find_user_by_columns [("id", id_value user_id)] [(Id, id_value user_id)])
    by (try discriminate; now destruct user_id).
  destruct user_id as [k|]; cbn [id_value].
  - rewrite find_by_id. destruct (db !! k) as [r|] eqn:E;
      cbn [fmap option_fmap option_map]; [| reflexivity].
    unfold query_update. rewrite Hp.
    destruct cols as [|c cs]; [easy |]. cbn [id_value]. now rewrite find_row_id, E.
  - destruct (find_row_not_int db VNone) as [_ ->]; easy.
Qed.

(** [update_user] raises [NoResultFound], before it looks at the keyword
    arguments, when no row has the given id. *)
Lemma update_user_no_row user_id kwargs db :
  (forall k, user_id = Some k -> db !! k = None) ->
  update_user user_id kwargs db = (Raise NoResultFound, db).
Proof.
  intros Hno. unfold update_user, mbind.
  rewrite (find_user_by_columns [("id", id_value user_id)] [(Id, id_value user_id)])
    by (try discriminate; now destruct user_id).
  destruct user_id as [k|]; simpl.
  - rewrite find_by_id, (Hno k eq_refl). reflexivity.
  - destruct (find_row_not_int db VNone) as [_ ->]; easy.
Qed.

End DbFacts.

(** ** Properties of the authentication service *)

Section ServiceFacts.

Import AuthService.
Context {orm : Orm} {bcrypt : Bcrypt}.

(** A lookup by one column either finds a row of the table that holds the
    value, or raises [NoResultFound] because no row holds it. *)
Lemma find_user_by_column_cases (c : column) (v : value) (db : Store) :
  typed c v = true ->
  (exists u, find_user_by [(column_name c, v)] db = (Ok u, db) /\
             sql_eq (cell c u) v = true /\ db !! id u = Some (row u)) \/
  (find_user_by [(column_name c, v)] db = (Raise NoResultFound, db) /\
   forall k r, db !! k = Some r -> sql_eq (cell c (mkUser k r)) v = false).
Proof.
  intros Ht.
  rewrite (find_user_by_columns [(column_name c, v)] [(c, v)])
    by (simpl; now rewrite ?as_column_name, ?Ht).
  destruct (List.find (tuple_in [(c, v)]) (rows db)) as [u|] eqn:E.
  - left. exists u. apply find_found in E as [Hin Hm].
    rewrite tuple_in_single in Hm. apply elem_of_rows in Hin. easy.
  - right. split; [reflexivity |]. intros k r Hk.
    apply rows_lookup, list_elem_of_In in Hk.
    rewrite <- tuple_in_single. exact (find_none _ _ E _ Hk).
Qed.

Lemma find_user_by_column_unique (c : column) (v : value) (db : Store) k r :
  typed c v = true ->
  db !! k = Some r ->
  sql_eq (cell c (mkUser k r)) v = true ->
  (forall k' r', db !! k' = Some r' -> sql_eq (cell c (mkUser k' r')) v = true -> k' = k) ->
  find_user_by [(column_name c, v)] db = (Ok (mkUser k r), db).
Proof.
  intros Ht Hk Hv Hu.
  rewrite (find_user_by_columns [(column_name c, v)] [(c, v)])
    by (simpl; now rewrite ?as_column_name, ?Ht).
  now rewrite (find_by_column_unique db c v k r).
Qed.

Lemma find_user_by_column_absent (c : column) (v : value) (db : Store) :
  typed c v = true ->
  (forall k r, db !! k = Some r -> sql_eq (cell c (mkUser k r)) v = false) ->
  find_user_by [(column_name c, v)] db = (Raise NoResultFound, db).
Proof.
  intros Ht H.
  rewrite (find_user_by_columns [(column_name c, v)] [(c, v)])
    by (simpl; now rewrite ?as_column_name, ?Ht).
  now rewrite find_by_column_absent.
Qed.

(** [add_user] with an email and a hash always inserts a row, under a key
    that was free. *)
Lemma add_user_inserts (e h : string) (db : Store) :
  add_user (Some e) (Some h) db =
  (Ok (Some (mkUser (next_id db) (mkRow e h None None))),
   <[next_id db := mkRow e h None None]> db).
Proof. reflexivity. Qed.

(** A lookup by the email a caller passes, [None] included: it finds an
    account with that email, or no account has it. *)
Lemma find_email_cases (o : option string) (db : Store) :
  (exists (u : User) e, o = Some e /\ email u = e /\ db !! id u = Some (row u) /\
               find_user_by [("email", opt_value o)] db = (Ok u, db)) \/
  (find_user_by [("email", opt_value o)] db = (Raise NoResultFound, db) /\
   forall e, o = Some e -> forall k r, db !! k = Some r -> email r <> e).
Proof.
  destruct (find_user_by_column_cases Email (opt_value o) db ltac:(now destruct o))
    as [(u & Hf & Hm & Hin) | [Hf Hnone]]; cbn [column_name] in Hf.
  - left. destruct o as [e|]; [| discriminate]. simpl in Hm. apply String.eqb_eq in Hm.
    exists u, e. easy.
  - right. split; [exact Hf |]. intros e -> k r Hk He. specialize (Hnone k r Hk).
    simpl in Hnone. rewrite He, String.eqb_refl in Hnone. discriminate.
Qed.

Lemma find_email_present (e : string) (db : Store) k r :
  db !! k = Some r -> email r = e ->
  exists u, find_user_by [("email", VStr e)] db = (Ok u, db).
Proof.
  intros Hk He. destruct (find_email_cases (Some e) db) as [(u & _ & _ & _ & _ & Hf) | [_ Hno]].
  - now exists u.
  - now destruct (Hno e eq_refl k r Hk).
Qed.

Lemma find_email_missing (e : string) (db : Store) :
  (forall k r, db !! k = Some r -> email r <> e) ->
  find_user_by [("email", VStr e)] db = (Raise NoResultFound, db).
Proof.
  intros Hno. apply (find_user_by_column_absent Email (VStr e) db eq_refl).
  intros k r Hk. simpl. apply String.eqb_neq. exact (Hno k r Hk).
Qed.

(** [register_user] when the lookup finds an account: the [ValueError], and
    no write. *)
Lemma register_user_any_found email password (s : salt) (db : Store) u :
  find_user_by [("email", opt_value email)] db = (Ok u, db) ->
  register_user_any email password s db =
    (Raise (ValueError ("User " +:+ format email +:+ " already exists")), db).
Proof.
  intros Hf. unfold register_user_any, except_NoResultFound, mbind, raise. now rewrite Hf.
Qed.

(** [register_user] when the lookup finds nothing: what hashing raises, or
    the insertion of [add_user]. *)
Lemma register_user_any_missing email password (s : salt) (db : Store) :
  find_user_by [("email", opt_value email)] db = (Raise NoResultFound, db) ->
  register_user_any email password s db =
    match _hash_password password s with
    | Ok h => add_user email (Some h) db
    | Raise err => (Raise err, db)
    end.
Proof.
  intros Hf. unfold register_user_any, except_NoResultFound, mbind, raise, lift.
  rewrite Hf. now destruct (_hash_password password s).
Qed.

Lemma register_user_existing (e p : string) (s : salt) (db : Store) k r :
  db !! k = Some r -> email r = e ->
  register_user e p s db = (Raise (ValueError ("User " +:+ e +:+ " already exists")), db).
Proof.
  intros Hk He. destruct (find_email_present e db k r Hk He) as [u Hf].
  exact (register_user_any_found (Some e) (Some p) s db u Hf).
Qed.

Lemma register_user_new (e p : string) (s : salt) (db : Store) :
  (forall k r, db !! k = Some r -> email r <> e) ->
  register_user e p s db =
    match hashpw (encode_utf8 p) s with
    | Ok h => (Ok (Some (mkUser (next_id db) (mkRow e h None None))),
               <[next_id db := mkRow e h None None]> db)
    | Raise err => (Raise err, db)
    end.
Proof.
  intros Hnew. unfold register_user.
  rewrite (register_user_any_missing (Some e) (Some p) s db (find_email_missing e db Hnew)).
  unfold _hash_password. cbn [encode bind]. now destruct (hashpw (encode_utf8 p) s).
Qed.


(** [valid_login] when the lookup finds an account: what [encode] and
    [bcrypt.checkpw] return or raise, [NoResultFound] apart. *)
Lemma valid_login_any_found email password (db : Store) u :
  find_user_by [("email", opt_value email)] db = (Ok u, db) ->
  valid_login_any email password db =
    match bind (encode password) (fun data => checkpw data (hashed_password u)) with
    | Raise NoResultFound => (Ok false, db)
    | answer => (answer, db)
    end.
Proof.
  intros Hf. unfold valid_login_any, except_NoResultFound, mbind, lift, ret. rewrite Hf.
  destruct (bind _ _) as [b|[]]; reflexivity.
Qed.

Lemma valid_login_any_missing email password (db : Store) :
  find_user_by [("email", opt_value email)] db = (Raise NoResultFound, db) ->
  valid_login_any email password db = (Ok false, db).
Proof.
  intros Hf. unfold valid_login_any, except_NoResultFound, mbind, ret. now rewrite Hf.
Qed.




(** Rewriting with a lemma about [column_name c], once the name is computed. *)
Ltac rewrite_column H :=
  let Hf := fresh "Hf" in
  pose proof H as Hf; cbn [column_name] in Hf; rewrite Hf; clear Hf.

(** An update of columns other than the key, on the row with the given id. *)
Lemma update_user_row k r kwargs cols u' (db : Store) :
  db !! k = Some r ->
  columns_of kwargs = Some cols -> cols <> [] ->
  assign_all cols (mkUser k r) = Ok u' -> id u' = k ->
  update_user (Some k) kwargs db = (Ok tt, <[k := row u']> db).
Proof.
  intros Hk Hc Hne Ha Hid. rewrite (update_user_columns _ _ cols) by assumption.
  rewrite Hk, Ha, Hid, Z.eqb_refl. simpl. now rewrite insert_delete_eq.
Qed.

(** A token held by the row [k] alone identifies it, in the table where the
    row [k] is replaced. *)
Lemma find_token_unique (c : column) (get : Row -> option string)
    (db : Store) k (r1 : Row) (t : string) :
  (forall k' r', cell c (mkUser k' r') = opt_value (get r')) ->
  get r1 = Some t ->
  (forall k' r', db !! k' = Some r' -> k' <> k -> get r' <> Some t) ->
  find_user_by [(column_name c, VStr t)] (<[k := r1]> db) =
    (Ok (mkUser k r1), <[k := r1]> db).
Proof.
  intros Hcell Hget Hfresh.
  assert (typed c (VStr t) = true) as Ht.
  { destruct c; try reflexivity. specialize (Hcell 0%Z r1). simpl in Hcell.
    now destruct (get r1). }
  apply find_user_by_column_unique; [exact Ht | | |].
  - apply lookup_insert_eq.
  - rewrite Hcell. now apply sql_eq_opt.
  - intros k' r' Hk' Hm. destruct (decide (k' = k)) as [-> | Hne]; [reflexivity |].
    rewrite lookup_insert_ne in Hk' by congruence.
    rewrite Hcell in Hm. apply sql_eq_opt in Hm. now destruct (Hfresh k' r' Hk' Hne).
Qed.

(** A token that no row holds finds nothing. *)
Lemma find_token_absent (c : column) (get : Row -> option string)
    (db : Store) k (r1 : Row) (t : string) :
  (forall k' r', cell c (mkUser k' r') = opt_value (get r')) ->
  get r1 <> Some t ->
  (forall k' r', db !! k' = Some r' -> k' <> k -> get r' <> Some t) ->
  find_user_by [(column_name c, VStr t)] (<[k := r1]> db) =
    (Raise NoResultFound, <[k := r1]> db).
Proof.
  intros Hcell Hget Hfresh.
  assert (typed c (VStr t) = true) as Ht.
  { destruct c; try reflexivity. specialize (Hcell 0%Z r1). simpl in Hcell.
    now destruct (get r1). }
  apply find_user_by_column_absent; [exact Ht |].
  intros k' r' Hk'. rewrite Hcell. apply not_true_is_false. intros Hm.
  apply sql_eq_opt in Hm. destruct (decide (k' = k)) as [-> | Hne].
  - rewrite lookup_insert_eq in Hk'. congruence.
  - rewrite lookup_insert_ne in Hk' by congruence. now destruct (Hfresh k' r' Hk' Hne).
Qed.

Lemma find_email_unique (db : Store) k r :
  db !! k = Some r ->
  (forall k' r', db !! k' = Some r' -> email r' = email r -> k' = k) ->
  find_user_by [("email", VStr (email r))] db = (Ok (mkUser k r), db).
Proof.
  intros Hk Hu. apply (find_user_by_column_unique Email (VStr (email r)) db k r eq_refl Hk).
  - simpl. apply String.eqb_refl.
  - intros k' r' Hk' Hm. simpl in Hm. apply String.eqb_eq in Hm. eauto.
Qed.

(** [create_session] when the lookup finds an account: the identifier is
    stored on it and returned. *)
Lemma create_session_any_found email (t : string) (db : Store) (u : User) :
  find_user_by [("email", opt_value email)] db = (Ok u, db) -> db !! id u = Some (row u) ->
  create_session_any email t db =
    (Ok (Some t), <[id u := with_session (Some t) (row u)]> db).
Proof.
  intros Hf Hin. unfold create_session_any, except_NoResultFound, mbind, ret. rewrite Hf.
  now rewrite (update_user_row (id u) (row u) _ [(SessionId, VStr t)]
                 (mkUser (id u) (with_session (Some t) (row u))) db).
Qed.

Lemma create_session_any_missing email (t : string) (db : Store) :
  find_user_by [("email", opt_value email)] db = (Raise NoResultFound, db) ->
  create_session_any email t db = (Ok None, db).
Proof.
  intros Hf. unfold create_session_any, except_NoResultFound, mbind, ret. now rewrite Hf.
Qed.

(** [get_reset_password_token] when the lookup finds an account: the token
    is stored on it and returned. *)
Lemma get_reset_password_token_any_found (o : option string) (t : string) (db : Store) (u : User) :
  find_user_by [("email", opt_value o)] db = (Ok u, db) -> db !! id u = Some (row u) ->
  get_reset_password_token_any o t db =
    (Ok t, <[id u := mkRow (email u) (hashed_password u) (session_id u) (Some t)]> db).
Proof.
  intros Hf Hin.
  unfold get_reset_password_token_any, except_NoResultFound, mbind, ret, raise. rewrite Hf.
  now rewrite (update_user_row (id u) (row u) _ [(ResetToken, VStr t)]
                 (mkUser (id u) (mkRow (email u) (hashed_password u) (session_id u) (Some t)))
                 db).
Qed.

Lemma get_reset_password_token_any_missing email (t : string) (db : Store) :
  find_user_by [("email", opt_value email)] db = (Raise NoResultFound, db) ->
  get_reset_password_token_any email t db = (Raise (ValueError "User not found"), db).
Proof.
  intros Hf.
  unfold get_reset_password_token_any, except_NoResultFound, mbind, ret, raise.
  now rewrite Hf.
Qed.

(** [update_password] when the lookup finds an account: what hashing raises,
    with no write, or one update that stores the hash and clears the
    token. *)
Lemma update_password_any_found token password (s : salt) (db : Store) (u : User) :
  find_user_by [("reset_token", opt_value token)] db = (Ok u, db) ->
  db !! id u = Some (row u) ->
  update_password_any token password s db =
    match _hash_password password s with
    | Ok h => (Ok tt, <[id u := mkRow (email u) h (session_id u) None]> db)
    | Raise err => (Raise err, db)
    end.
Proof.
  intros Hf Hin.
  unfold update_password_any, except_NoResultFound, mbind, ret, raise, lift. rewrite Hf.
  destruct (_hash_password password s) as [h|err]; [| reflexivity].
  now rewrite (update_user_row (id u) (row u) _
                 [(HashedPassword, VStr h); (ResetToken, VNone)]
                 (mkUser (id u) (mkRow (email u) h (session_id u) None)) db).
Qed.

Lemma update_password_any_missing token password (s : salt) (db : Store) :
  find_user_by [("reset_token", opt_value token)] db = (Raise NoResultFound, db) ->
  update_password_any token password s db = (Raise (ValueError "Invalid reset token"), db).
Proof.
  intros Hf. unfold update_password_any, except_NoResultFound, mbind, ret, raise.
  now rewrite Hf.
Qed.

(** A reset token that no account holds, [None] included, finds nothing. *)
Lemma find_reset_token_missing (token : option string) (db : Store) :
  (forall t k r, token = Some t -> db !! k = Some r -> reset_token r <> Some t) ->
  find_user_by [("reset_token", opt_value token)] db = (Raise NoResultFound, db).
Proof.
  intros Hno.
  apply (find_user_by_column_absent ResetToken (opt_value token) db ltac:(now destruct token)).
  intros k r Hk. destruct token as [t|]; [| now destruct (cell ResetToken (mkUser k r))].
  apply not_true_is_false. intros Hm. apply sql_eq_opt in Hm. exact (Hno t k r eq_refl Hk Hm).
Qed.

(** C3. For a registered account (the one account with its email), with a
    session identifier that is not empty and that no other account holds:
    [create_session] returns the identifier and stores it on the account;
    [get_user_from_session_id] with it returns that account; after
    [destroy_session] with the account's id, the same identifier yields
    [None]. *)
Theorem session_round_trip (db : Store) (k : Z) (r : Row) (t : string) :
  db !! k = Some r ->
  (forall k' r', db !! k' = Some r' -> email r' = email r -> k' = k) ->
  (forall k' r', db !! k' = Some r' -> k' <> k -> session_id r' <> Some t) ->
  t <> "" -> k <> 0%Z ->
  let logged_in := mkRow (email r) (hashed_password r) (Some t) (reset_token r) in
  let logged_out := mkRow (email r) (hashed_password r) None (reset_token r) in
  create_session (email r) t db = (Ok (Some t), <[k := logged_in]> db) /\
  get_user_from_session_id (Some t) (<[k := logged_in]> db) =
    (Ok (Some (mkUser k logged_in)), <[k := logged_in]> db) /\
  destroy_session (Some k) (<[k := logged_in]> db) = (Ok tt, <[k := logged_out]> db) /\
  get_user_from_session_id (Some t) (<[k := logged_out]> db) =
    (Ok None, <[k := logged_out]> db).
Proof.
  intros Hk Huniq Hfresh Ht Hk0 logged_in logged_out.
  assert (create_session (email r) t db = (Ok (Some t), <[k := logged_in]> db)) as Hcreate.
  { exact (create_session_any_found (Some (email r)) t db (mkUser k r)
             (find_email_unique db k r Hk Huniq) Hk). }
  assert (destroy_session (Some k) (<[k := logged_in]> db) = (Ok tt, <[k := logged_out]> db))
    as Hdestroy.
  { unfold destroy_session. simpl. apply Z.eqb_neq in Hk0 as ->. simpl.
    rewrite (update_user_row k logged_in _ [(SessionId, VNone)] (mkUser k logged_out));
      try easy; [| apply lookup_insert_eq].
    simpl. now rewrite insert_insert_eq. }
  repeat apply conj; [exact Hcreate | | exact Hdestroy |].
  - destruct t as [|c t']; [easy |].
    unfold get_user_from_session_id, except_NoResultFound, mbind, ret.
    now rewrite_column (find_token_unique SessionId session_id db k logged_in (String c t')).
  - destruct t as [|c t']; [easy |].
    unfold get_user_from_session_id, except_NoResultFound, mbind, ret.
    now rewrite_column (find_token_absent SessionId session_id db k logged_out (String c t')).
Qed.


(** *** Email uniqueness *)



Lemma assign_keeps_email c v u u' :
  c <> Id -> c <> Email -> assign c v u = Ok u' ->
  id u' = id u /\ email u' = email u.
Proof. destruct c, v; simpl; intros ? ? [= <-]; easy. Qed.

Lemma assign_all_keeps_email cols u u' :
  Forall (fun cv => fst cv <> Id /\ fst cv <> Email) cols ->
  assign_all cols u = Ok u' -> id u' = id u /\ email u' = email u.
Proof.
  intros Hall. revert u. induction Hall as [|[c v] cols [Hid Hem] _ IH]; intros u; simpl.
  - now intros [= <-].
  - destruct (assign c v u) as [u1|e] eqn:E; simpl; [| discriminate].
    intros Hrest. apply IH in Hrest as [-> ->].
    exact (assign_keeps_email _ _ _ _ Hid Hem E).
Qed.

(** What an update that names neither [id] nor [email] does to the table:
    nothing, or it replaces one row by a row with the same email. *)
Lemma update_user_effect user_id kwargs cols (db : Store) :
  columns_of kwargs = Some cols -> cols <> [] ->
  Forall (fun cv => fst cv <> Id /\ fst cv <> Email) cols ->
  snd (update_user user_id kwargs db) = db \/
  replaces_row db (snd (update_user user_id kwargs db)).
Proof.
  intros Hc Hne Hall. rewrite (update_user_columns _ _ cols) by assumption.
  destruct user_id as [k|]; [| now left].
  destruct (db !! k) as [r|] eqn:Hk; [| now left].
  destruct (assign_all cols (mkUser k r)) as [u'|e] eqn:Ha; [| now left].
  destruct (assign_all_keeps_email _ _ _ Hall Ha) as [Hid He]. simpl in Hid, He.
  rewrite Hid, Z.eqb_refl. simpl. rewrite insert_delete_eq.
  right. now exists k, r, (row u').
Qed.

(** What one call of the service does to the table: nothing, the
    replacement of a row by one with the same email, or the insertion under
    the next key of a row whose email was not in the table. *)
Lemma service_step_effect (db db' : Store) :
  service_step db db' ->
  db' = db \/ replaces_row db db' \/
  exists e h, (forall k r, db !! k = Some r -> email r <> e) /\
              db' = <[next_id db := mkRow e h None None]> db.
Proof.
  intros Hstep. destruct Hstep as [e p s db | e t db | v db | e t db | t p s db].
  - destruct (find_email_cases e db) as [(u & e' & -> & He & Hin & Hf) | [Hf Hno]].
    + rewrite (register_user_any_found _ p s db u Hf). now left.
    + rewrite (register_user_any_missing e p s db Hf).
      destruct (_hash_password p s) as [h|err]; [| now left].
      destruct e as [e|]; [| now left].
      rewrite add_user_inserts. right. right. exists e, h.
      split; [exact (Hno e eq_refl) | reflexivity].
  - destruct (find_email_cases e db) as [(u & e' & -> & He & Hin & Hf) | [Hf _]].
    + rewrite (create_session_any_found _ t db u Hf Hin). right. left.
      now exists (id u), (row u), (with_session (Some t) (row u)).
    + rewrite (create_session_any_missing _ t db Hf). now left.
  - unfold destroy_session. destruct (id_truthy v); [| now left].
    destruct (update_user_effect v [("session_id", VNone)] [(SessionId, VNone)] db eq_refl);
      try solve [easy | repeat constructor; easy]; auto.
  - destruct (find_email_cases e db) as [(u & e' & -> & He & Hin & Hf) | [Hf _]].
    + rewrite (get_reset_password_token_any_found _ t db u Hf Hin). right. left.
      now exists (id u), (row u),
                 (mkRow (email u) (hashed_password u) (session_id u) (Some t)).
    + rewrite (get_reset_password_token_any_missing _ t db Hf). now left.
  - destruct (find_user_by_column_cases ResetToken (opt_value t) db ltac:(now destruct t))
      as [(u & Hf & _ & Hin) | [Hf _]]; cbn [column_name] in Hf.
    + rewrite (update_password_any_found t p s db u Hf Hin).
      destruct (_hash_password p s) as [h|err]; [| now left]. right. left.
      now exists (id u), (row u), (mkRow (email u) h (session_id u) None).
    + rewrite (update_password_any_missing t p s db Hf). now left.
Qed.






(** *** Validation of keyword arguments *)


Lemma assign_other c v u u' c' :
  assign c v u = Ok u' -> c' <> c -> cell c' u' = cell c' u.
Proof. destruct c, v; simpl; intros [= <-] Hne; destruct c'; easy. Qed.

Lemma assign_all_other cols u u' c' :
  assign_all cols u = Ok u' -> c' ∉ cols.*1 -> cell c' u' = cell c' u.
Proof.
  revert u; induction cols as [|[c v] cols IH]; intros u; simpl.
  - now intros [= <-].
  - destruct (assign c v u) as [u1|e] eqn:E; simpl; [| discriminate].
    intros Hrest Hnot. apply not_elem_of_cons in Hnot as [Hne Hnot].
    rewrite (IH u1 Hrest Hnot). exact (assign_other _ _ _ _ _ E Hne).
Qed.











(** C9 fails on the code: [update_user] with an id that matches no account
    raises [NoResultFound], whatever the keyword arguments are, and
    [destroy_session] lets it through. Only a falsy id ([None] or [0]) makes
    [destroy_session] return without touching the table. *)
Theorem update_user_missing_id_raises :
  (forall user_id kwargs (db : Store),
      (forall k, user_id = Some k -> db !! k = None) ->
      update_user user_id kwargs db = (Raise NoResultFound, db)) /\
  update_user (Some 99%Z) [("session_id", VStr "x")] ∅ = (Raise NoResultFound, ∅) /\
  (forall db : Store, destroy_session None db = (Ok tt, db)) /\
  (forall db : Store, destroy_session (Some 0%Z) db = (Ok tt, db)) /\
  (forall (db : Store) k,
      k <> 0%Z -> db !! k = None ->
      destroy_session (Some k) db = (Raise NoResultFound, db)).
Proof.
  repeat apply conj.
  - intros user_id kwargs db. apply update_user_no_row.
  - apply update_user_no_row. intros k _. apply lookup_empty.
  - reflexivity.
  - reflexivity.
  - intros db k Hk0 Hk. unfold destroy_session. simpl.
    apply Z.eqb_neq in Hk0 as ->. simpl. apply update_user_no_row. congruence.
Qed.

(** C10. With a falsy session identifier ([None] or the empty string)
    [get_user_from_session_id] is the call that returns [None] and does
    nothing else, in every state of the table; and the value that a cleared
    [session_id] holds matches no row, so it cannot be used to find the
    account: this holds in particular after [destroy_session]. *)
Theorem falsy_session_id_finds_nobody :
  get_user_from_session_id None = ret None /\
  get_user_from_session_id (Some "") = ret None /\
  (forall db : Store, get_user_from_session_id None db = (Ok None, db)) /\
  (forall db : Store, get_user_from_session_id (Some "") db = (Ok None, db)) /\
  (forall db : Store,
      find_user_by [("session_id", VNone)] db = (Raise NoResultFound, db)) /\
  (forall (db : Store) k r,
      db !! k = Some r -> k <> 0%Z ->
      let cleared := mkRow (email r) (hashed_password r) None (reset_token r) in
      destroy_session (Some k) db = (Ok tt, <[k := cleared]> db) /\
      get_user_from_session_id (session_id cleared) (<[k := cleared]> db) =
        (Ok None, <[k := cleared]> db)).
Proof.
  repeat apply conj; try reflexivity.
  - intros db. apply (find_user_by_column_absent SessionId VNone db eq_refl).
    intros k r _. now destruct (cell SessionId (mkUser k r)).
  - intros db k r Hk Hk0 cleared. split; [| reflexivity].
    unfold destroy_session. simpl. apply Z.eqb_neq in Hk0 as ->. simpl.
    now rewrite (update_user_row k r _ [(SessionId, VNone)]
                   (mkUser k (mkRow (email r) (hashed_password r) None (reset_token r))) db).
Qed.

End ServiceFacts.

(** ** The service run on concrete tables *)

Section Runs.

Import AuthService Instances.

(** The stand-in accepts a password of at most 72 bytes against its own
    hash, and refuses any other such password. *)
Lemma salted_checkpw_hashpw (p p2 : string) (s : ascii) :
  String.length p <= 72 -> String.length p2 <= 72 ->
  hashpw p s = Ok (String s p) /\
  checkpw p2 (String s p) = Ok (bool_decide (p2 = p)).
Proof.
  intros Hp Hp2. simpl.
  rewrite !(proj2 (Nat.ltb_ge _ _)) by assumption. split; [reflexivity |].
  f_equal. case_bool_decide as H; [now apply String.eqb_eq | now apply String.eqb_neq].
Qed.

Lemma one_account_only (k : Z) (r : Row) : one_account !! k = Some r -> k = 1%Z.
Proof.
  unfold one_account. intros H. destruct (decide (k = 1%Z)) as [-> | Hne]; [reflexivity |].
  rewrite lookup_singleton_ne in H by congruence. discriminate.
Qed.

(** C1 on the table with one account. *)
Example register_user_runs :
  register_user "a@example.com" "other" "t"%char one_account =
    (Raise (ValueError "User a@example.com already exists"), one_account) /\
  register_user "b@example.com" "pw2" "t"%char one_account =
    (Ok (Some (mkUser 2 (mkRow "b@example.com" "tpw2" None None))),
     <[2%Z := mkRow "b@example.com" "tpw2" None None]> one_account).
Proof.
  split.
  - exact (register_user_existing "a@example.com" "other" "t"%char one_account
             1%Z alice eq_refl eq_refl).
  - rewrite register_user_new; [reflexivity |].
    intros k r Hk. rewrite (one_account_only k r Hk) in Hk. now injection Hk as <-.
Qed.


(** C2 at the stand-in for [bcrypt]: after registering [a@example.com] with
    [pw1] in the empty table, [pw1] logs in and [pw2] does not. *)
Example valid_login_runs :
  register_user "a@example.com" "pw1" "s"%char ∅ =
    (Ok (Some (mkUser 1 alice)), one_account) /\
  valid_login "a@example.com" "pw1" one_account = (Ok true, one_account) /\
  valid_login "a@example.com" "pw2" one_account = (Ok false, one_account) /\
  valid_login "b@example.com" "pw1" one_account = (Ok false, one_account).
Proof. vm_compute. repeat split. Qed.


(** With a [bcrypt] that cuts a password to 72 bytes instead of refusing
    it, [valid_login] accepts a password other than the one registered. *)
Example valid_login_truncated_password :
  let registered := long_password +:+ "x" in
  let other := long_password +:+ "y" in
  let db := snd (@register_user strict_orm truncating "c@example.com" registered "s"%char ∅) in
  registered <> other /\
  @valid_login strict_orm truncating "c@example.com" other db = (Ok true, db).
Proof. split; [discriminate | vm_compute; reflexivity]. Qed.

(** C3 on the table with one account and the session identifier [tok]. *)
Lemma session_round_trip_witness :
  let logged_in := mkRow "a@example.com" "spw1" (Some "tok") None in
  create_session "a@example.com" "tok" one_account =
    (Ok (Some "tok"), <[1%Z := logged_in]> one_account) /\
  get_user_from_session_id (Some "tok") (<[1%Z := logged_in]> one_account) =
    (Ok (Some (mkUser 1 logged_in)), <[1%Z := logged_in]> one_account) /\
  destroy_session (Some 1%Z) (<[1%Z := logged_in]> one_account) =
    (Ok tt, <[1%Z := alice]> one_account) /\
  get_user_from_session_id (Some "tok") (<[1%Z := alice]> one_account) =
    (Ok None, <[1%Z := alice]> one_account).
Proof.
  apply (@session_round_trip strict_orm one_account 1%Z alice "tok").
  - reflexivity.
  - intros k' r' Hk' _. exact (one_account_only k' r' Hk').
  - intros k' r' Hk' Hne. now destruct (Hne (one_account_only k' r' Hk')).
  - discriminate.
  - lia.
Defined.


(** After that reset the new password logs in and the old one does not. *)
Example password_reset_runs :
  let updated := mkRow "a@example.com" "tpw2" None None in
  valid_login "a@example.com" "pw2" (<[1%Z := updated]> one_account) =
    (Ok true, <[1%Z := updated]> one_account) /\
  valid_login "a@example.com" "pw1" (<[1%Z := updated]> one_account) =
    (Ok false, <[1%Z := updated]> one_account).
Proof. vm_compute. repeat split. Qed.



(** C8 on the table with one account. *)
Example store_validation_runs :
  find_user_by [("email", VStr "a@example.com"); ("no_such_field", VNone)] one_account =
    (Raise (InvalidRequestError "Invalid attribute: no_such_field"), one_account) /\
  update_user (Some 1%Z) [("session_id", VStr "tok"); ("no_such_field", VNone)] one_account =
    (Raise (ValueError "Invalid attribute: no_such_field"), one_account) /\
  update_user (Some 1%Z) [("session_id", VStr "tok"); ("reset_token", VStr "rst")] one_account =
    (Ok tt, <[1%Z := mkRow "a@example.com" "spw1" (Some "tok") (Some "rst")]> one_account) /\
  update_user (Some 1%Z) [("email", VNone)] one_account = (Raise IntegrityError, one_account) /\
  find_user_by [("__tablename__", VStr "accounts")] one_account =
    (Raise NoResultFound, one_account).
Proof. vm_compute. repeat split. Qed.


(** The scenario of the specification: register, log in, open a session,
    read the profile, log out, and find the session gone. *)
Example end_to_end_scenario :
  let db1 := snd (register_user "a@example.com" "pw1" "s"%char ∅) in
  let db2 := snd (create_session "a@example.com" "tok" db1) in
  let db3 := snd (destroy_session (Some 1%Z) db2) in
  fst (register_user "a@example.com" "pw1" "s"%char ∅) = Ok (Some (mkUser 1 alice)) /\
  fst (valid_login "a@example.com" "pw1" db1) = Ok true /\
  fst (valid_login "a@example.com" "pw2" db1) = Ok false /\
  fst (create_session "a@example.com" "tok" db1) = Ok (Some "tok") /\
  fst (get_user_from_session_id (Some "tok") db2) =
    Ok (Some (mkUser 1 (mkRow "a@example.com" "spw1" (Some "tok") None))) /\
  fst (get_user_from_session_id (Some "tok") db3) = Ok None /\
  db3 = db1.
Proof. vm_compute. repeat split. Qed.

End Runs.

(** ** Further properties of Basic authentication *)

Section BasicAuthExtras.

Import BasicAuth BasicAuthApp.
Context {codec : Codec} {users : UserModel}.

Lemma contains_append (ch : ascii) (a b : string) :
  contains ch (a +:+ String ch b) = true.
Proof.
  induction a as [|c a IH]; simpl.
  - now rewrite Ascii.eqb_refl.
  - rewrite IH. apply orb_true_r.
Qed.

Lemma split1_at_first (sep : ascii) (a b : string) :
  contains sep a = false -> split1 sep (a +:+ String sep b) = [a; b].
Proof.
  induction a as [|c a IH]; simpl.
  - intros _. now rewrite Ascii.eqb_refl.
  - intros H. apply orb_false_iff in H as [Hc Ha]. rewrite Hc. now rewrite (IH Ha).
Qed.

Lemma split1_first (sep : ascii) (s : string) :
  contains sep s = true ->
  exists a b, split1 sep s = [a; b] /\ s = a +:+ String sep b /\ contains sep a = false.
Proof.
  induction s as [|c s IH]; simpl; [discriminate |].
  destruct (Ascii.eqb c sep) eqn:Ec; simpl.
  - intros _. apply Ascii.eqb_eq in Ec as ->. now exists "", s.
  - intros H. destruct (IH H) as (a & b & -> & -> & Ha).
    exists (String c a), b. simpl. now rewrite Ec, Ha.
Qed.

Lemma extract_user_credentials_round_trip_aux (email pwd : string) :
  contains ":" email = false ->
  extract_user_credentials (Some (email +:+ ":" +:+ pwd)) = [Some email; Some pwd].
Proof.
  intros He. unfold extract_user_credentials.
  change (email +:+ ":" +:+ pwd) with (email +:+ String ":" pwd).
  now rewrite contains_append, (split1_at_first _ _ _ He).
Qed.

(** X1. The credentials are split at the first colon: an email without a
    colon and any password, colons included, come back as they were. *)
Theorem extract_user_credentials_round_trip (email pwd : string) :
  contains ":" email = false ->
  extract_user_credentials (Some (email +:+ ":" +:+ pwd)) = [Some email; Some pwd].
Proof.
  intros He. unfold extract_user_credentials.
  change (email +:+ ":" +:+ pwd) with (email +:+ String ":" pwd).
  rewrite contains_append. cbn [negb].
  now rewrite (split1_at_first ":" email pwd He).
Qed.

Lemma extract_user_credentials_round_trip_witness :
  contains ":" "a@example.com" = false /\
  extract_user_credentials (Some "a@example.com:p:w") = [Some "a@example.com"; Some "p:w"].
Proof.
  split; [reflexivity |].
  exact (extract_user_credentials_round_trip "a@example.com" "p:w" eq_refl).
Defined.

(** X2. The base64 part is extracted exactly from the headers that start
    with ["Basic "], and it is everything after that prefix. *)
Theorem extract_base64_authorization_header_spec (h b : string) :
  extract_base64_authorization_header (Some h) = Some b <-> h = "Basic " +:+ b.
Proof.
  unfold extract_base64_authorization_header. split.
  - destruct (startswith h "Basic ") eqn:E; simpl; [| discriminate].
    apply startswith_spec in E as [rest ->]. simpl. now intros [= ->].
  - intros ->. assert (startswith ("Basic " +:+ b) "Basic " = true) as ->
      by (apply startswith_spec; now exists b).
    reflexivity.
Qed.

Lemma truthy_Some (o : option string) :
  truthy o = true <-> exists s, o = Some s /\ s <> "".
Proof.
  destruct o as [[|c s]|]; simpl; split; try discriminate.
  - intros (s & [= <-] & H). now destruct H.
  - intros _. now exists (String c s).
  - reflexivity.
  - intros (s & H & _). discriminate.
Qed.

Lemma decode_base64_Some (b text : string) :
  decode_base64_authorization_header (Some b) = Ok (Some text) <->
  exists bytes, b64decode b = Ok bytes /\ utf8_decode bytes = Ok text.
Proof.
  unfold decode_base64_authorization_header. split.
  - destruct (b64decode b) as [bytes|e] eqn:Hb; simpl; [| discriminate].
    destruct (utf8_decode bytes) as [t|e] eqn:Hu; simpl; [| discriminate].
    intros [= ->]. now exists bytes.
  - intros (bytes & -> & Hu). simpl. now rewrite Hu.
Qed.

(** X3. [current_user] returns a user exactly for a request whose
    [Authorization] header is ["Basic "] followed by a non-empty base64 text
    that decodes to [email:password], split at the first colon with both
    parts non-empty, where the user is the first one the search by email
    returns and the password checks for that user. *)
Theorem current_user_authenticates (request : option Request) (u : User) :
  current_user request = Ok (Some u) <->
  exists b bytes email pwd,
    authorization_header request = Some ("Basic " +:+ b) /\ b <> "" /\
    b64decode b = Ok bytes /\
    utf8_decode bytes = Ok (email +:+ ":" +:+ pwd) /\
    contains ":" email = false /\ email <> "" /\ pwd <> "" /\
    (exists others, User_search_email email = u :: others) /\
    is_valid_password u pwd = true.
Proof.
  unfold current_user. split.
  - destruct (truthy (authorization_header request)) eqn:Hh; cbn [negb]; [| discriminate].
    apply truthy_Some in Hh as (h & Hh & _). rewrite Hh.
    destruct (truthy (extract_base64_authorization_header (Some h))) eqn:Hb; cbn [negb];
      [| discriminate].
    apply truthy_Some in Hb as (b & Hb & Hbne). rewrite Hb.
    apply extract_base64_authorization_header_spec in Hb as ->.
    destruct (decode_base64_authorization_header (Some b)) as [text|e] eqn:Hd;
      cbn [bind]; [| discriminate].
    destruct (truthy text) eqn:Ht; cbn [negb]; [| discriminate].
    apply truthy_Some in Ht as (t & -> & Htne).
    apply decode_base64_Some in Hd as (bytes & Hbytes & Htext).
    unfold extract_user_credentials.
    destruct (contains ":" t) eqn:Hc; cbn [negb]; [| discriminate].
    destruct (split1_first _ _ Hc) as (email & pwd & -> & -> & He).
    cbn [fmap list_fmap unpack2 bind].
    destruct email as [|c email]; [discriminate |].
    destruct pwd as [|c' pwd]; [discriminate |].
    cbn [truthy negb orb user_object_from_credentials].
    destruct (User_search_email (String c email)) as [|u0 others] eqn:Hs; [discriminate |].
    destruct (is_valid_password u0 (String c' pwd)) eqn:Hv; cbn [negb]; [| discriminate].
    intros [= <-]. exists b, bytes, (String c email), (String c' pwd).
    repeat split; try easy. now exists others.
  - intros (b & bytes & email & pwd & -> & Hb & Hbytes & Htext & He & Hene & Hpne
            & (others & Hs) & Hv).
    pose proof (extract_user_credentials_round_trip_aux email pwd He) as Hcred.
    assert (extract_base64_authorization_header (Some ("Basic " +:+ b)) = Some b) as Hx
      by now apply extract_base64_authorization_header_spec.
    assert (decode_base64_authorization_header (Some b) = Ok (Some (email +:+ ":" +:+ pwd)))
      as Hd by (apply decode_base64_Some; eauto).
    destruct b as [|cb b]; [easy |]. destruct email as [|c email]; [easy |].
    destruct pwd as [|c' pwd]; [easy |].
    change (truthy (Some ("Basic " +:+ String cb b))) with true. cbn [negb].
    rewrite Hx. cbn [truthy negb]. rewrite Hd. cbn [bind].
    change (truthy (Some (String c email +:+ ":" +:+ String c' pwd))) with true.
    cbn [negb]. rewrite Hcred.
    cbn [unpack2 bind truthy negb orb user_object_from_credentials].
    now rewrite Hs, Hv.
Qed.

Lemma rstrip_all (ch : ascii) (n : nat) : rstrip ch (replicate_char n ch) = "".
Proof. induction n as [|n IH]; simpl; [reflexivity |]. now rewrite IH, Ascii.eqb_refl. Qed.

Lemma rstrip_append_run (ch : ascii) (s : string) (n : nat) :
  rstrip ch (s +:+ replicate_char n ch) = rstrip ch s.
Proof.
  induction s as [|c s IH]; simpl; [apply rstrip_all | now rewrite IH].
Qed.

(** X4. Slashes added at the end of the path do not change the answer of
    [require_auth]. *)
Theorem require_auth_trailing_slashes (path : string) (n : nat)
    (excluded : option (list string)) :
  require_auth (Some (path +:+ replicate_char n "/")) excluded =
  require_auth (Some path) excluded.
Proof. unfold require_auth. now rewrite rstrip_append_run. Qed.

(** X5. Excluding more paths never makes a path require authentication. *)
Theorem require_auth_more_exclusions (path : option string) (ex more : list string) :
  require_auth path (Some (ex ++ more)%list) = true -> require_auth path (Some ex) = true.
Proof.
  destruct path as [p|]; [| reflexivity]. destruct ex as [|e ex]; [reflexivity |].
  unfold require_auth. rewrite <- app_comm_cons. cbn [length Nat.eqb].
  rewrite !negb_true_iff, app_comm_cons, existsb_app. now intros [H _]%orb_false_iff.
Qed.

Lemma require_auth_more_exclusions_witness :
  require_auth (Some "/api/v1/users") (Some (["/api/v1/status/"] ++ ["/api/v1/stat"])%list) = true /\
  require_auth (Some "/api/v1/users") (Some ["/api/v1/status/"]) = true.
Proof.
  split; [reflexivity |].
  exact (require_auth_more_exclusions (Some "/api/v1/users") ["/api/v1/status/"]
           ["/api/v1/stat"] eq_refl).
Defined.

Lemma current_user_returns (request : option Request) :
  exists user, current_user request = Ok user.
Proof.
  unfold current_user.
  destruct (truthy (authorization_header request)); simpl; [| now exists None].
  destruct (truthy (extract_base64_authorization_header _)); simpl; [| now exists None].
  destruct (decode_base64_never_raises
              (extract_base64_authorization_header (authorization_header request)))
    as [text ->]. simpl.
  destruct (truthy text); simpl; [| now exists None].
  destruct (extract_user_credentials_pair text) as (a & b & ->). simpl.
  destruct (negb (truthy a) || negb (truthy b)); eauto.
Qed.

(** X6. The hook lets through every request whose path, with its trailing
    slash normalized, starts with one of the three excluded paths, whatever
    [auth] is and whatever the request carries. *)
Theorem authenticate_user_excluded (auth : option auth_object) (path : string)
    (request : Request) (e rest : string) :
  e ∈ excluded_paths -> normalize_slash path = e +:+ rest ->
  authenticate_user auth path request = Ok Proceed.
Proof.
  intros Hin Hpre. unfold authenticate_user. destruct auth as [auth|]; [| reflexivity].
  assert (require_auth (Some path) (Some excluded_paths) = false) as ->; [| reflexivity].
  unfold require_auth. cbn [excluded_paths length Nat.eqb].
  apply negb_false_iff. apply existsb_startswith. now exists e, rest.
Qed.

(** X7. On a path that requires authentication the hook never raises: it
    aborts with 401 when the request has no [Authorization] header; with a
    header it aborts with 403 unless [auth] is a [BasicAuth] whose
    [current_user] returns a user. With the base [Auth] no such request gets
    through. *)
Theorem authenticate_user_protected (auth : auth_object) (path : string)
    (request : Request) :
  require_auth (Some path) (Some excluded_paths) = true ->
  authenticate_user (Some auth) path request =
  Ok match headers_get request "Authorization" with
     | None => Abort 401
     | Some _ =>
         match auth with
         | AuthBase => Abort 403
         | AuthBasic =>
             match current_user (Some request) with
             | Ok (Some _) => Proceed
             | _ => Abort 403
             end
         end
     end.
Proof.
  intros Hreq. unfold authenticate_user. rewrite Hreq.
  unfold auth_current_user, authorization_header. destruct auth.
  - simpl. now destruct (headers_get request "Authorization").
  - destruct (current_user_returns (Some request)) as [user ->]. simpl.
    now destruct (headers_get request "Authorization"), user.
Qed.

(** X22. The choice of [auth] decides everything: when [AUTH_TYPE] is not
    set the base [Auth] is used, which authenticates nobody, so a request to
    a path that requires authentication is refused with 401 or 403; with any
    [AUTH_TYPE] other than [auth] and [basic_auth] there is no [auth] object
    and the hook lets every request through. *)
Theorem auth_type_decides :
  (forall path request,
      require_auth (Some path) (Some excluded_paths) = true ->
      authenticate_user (make_auth (getenv_AUTH_TYPE None)) path request =
        Ok match headers_get request "Authorization" with
           | None => Abort 401
           | Some _ => Abort 403
           end) /\
  (forall auth_type path request,
      auth_type <> "auth" -> auth_type <> "basic_auth" ->
      authenticate_user (make_auth (getenv_AUTH_TYPE (Some auth_type))) path request =
        Ok Proceed).
Proof.
  split.
  - intros path request Hreq. unfold authenticate_user. simpl make_auth. cbv iota.
    rewrite Hreq. unfold auth_current_user, authorization_header. simpl.
    now destruct (headers_get request "Authorization").
  - intros auth_type path request H1 H2. unfold make_auth, getenv_AUTH_TYPE.
    apply String.eqb_neq in H1, H2. now rewrite H1, H2.
Qed.

End BasicAuthExtras.

Section BasicAuthRuns.

Import BasicAuth BasicAuthApp Instances.

Lemma authenticate_user_excluded_witness :
  "/api/v1/status/" ∈ excluded_paths /\
  normalize_slash "/api/v1/status" = "/api/v1/status/" +:+ "" /\
  authenticate_user (Some AuthBasic) "/api/v1/status" {| headers_get := fun _ => None |} =
    Ok Proceed.
Proof.
  assert ("/api/v1/status/" ∈ excluded_paths) as Hin by (unfold excluded_paths; left).
  split; [exact Hin |]. split; [reflexivity |].
  exact (@authenticate_user_excluded strict_codec one_user (Some AuthBasic)
           "/api/v1/status" {| headers_get := fun _ => None |} "/api/v1/status/" ""
           Hin eq_refl).
Defined.

Lemma authenticate_user_protected_witness :
  let request h := {| headers_get := fun key =>
                        if String.eqb key "Authorization" then h else None |} in
  require_auth (Some "/api/v1/users") (Some excluded_paths) = true /\
  authenticate_user (Some AuthBasic) "/api/v1/users" (request None) = Ok (Abort 401) /\
  authenticate_user (Some AuthBasic) "/api/v1/users" (request (Some "Bearer xyz")) =
    Ok (Abort 403) /\
  authenticate_user (Some AuthBasic) "/api/v1/users"
    (request (Some "Basic YUBleGFtcGxlLmNvbTpwdzE=")) = Ok Proceed /\
  authenticate_user (Some AuthBase) "/api/v1/users"
    (request (Some "Basic YUBleGFtcGxlLmNvbTpwdzE=")) = Ok (Abort 403).
Proof.
  intros request.
  pose proof (fun a r => @authenticate_user_protected strict_codec one_user a
                           "/api/v1/users" r eq_refl) as H.
  apply conj; [reflexivity |].
  apply conj; [exact (H AuthBasic (request None)) |].
  apply conj; [exact (H AuthBasic (request (Some "Bearer xyz"))) |].
  apply conj; [exact (H AuthBasic (request (Some "Basic YUBleGFtcGxlLmNvbTpwdzE="))) |].
  exact (H AuthBase (request (Some "Basic YUBleGFtcGxlLmNvbTpwdzE="))).
Defined.

End BasicAuthRuns.

(** ** Further properties of [db.py] *)

Section DbExtras.

Import AuthService.
Context {orm : Orm} {bcrypt : Bcrypt}.

#[local] Instance by_id_total : Total by_id.
Proof. intros u v. unfold by_id. lia. Qed.

#[local] Instance by_id_trans : Transitive by_id.
Proof. intros u v w. unfold by_id. lia. Qed.

(** The scan visits the rows by ascending [id]. *)
Lemma rows_sorted (db : Store) : StronglySorted by_id (rows db).
Proof.
  unfold rows. apply Sorted_StronglySorted; [exact by_id_trans |].
  apply (Sorted_merge_sort by_id).
Qed.

Lemma find_least {A} (R : relation A) (P : A -> bool) (l : list A) (x : A) :
  Reflexive R -> StronglySorted R l -> List.find P l = Some x ->
  forall y, y ∈ l -> P y = true -> R x y.
Proof.
  intros Hrefl Hs. induction Hs as [|a l Hs IH Hall]; simpl; [discriminate |].
  destruct (P a) eqn:Ea.
  - intros [= <-] y Hy _. apply elem_of_cons in Hy as [-> | Hy]; [apply Hrefl |].
    rewrite Forall_forall in Hall. now apply Hall.
  - intros Hf y Hy HP. apply elem_of_cons in Hy as [-> | Hy]; [congruence |]. now apply IH.
Qed.

Lemma tuple_in_spec (cols : list (column * value)) (u : User) :
  tuple_in cols u = true <-> forall c v, (c, v) ∈ cols -> sql_eq (cell c u) v = true.
Proof.
  unfold tuple_in. rewrite forallb_forall. split.
  - intros H c v Hin. apply list_elem_of_In in Hin. exact (H (c, v) Hin).
  - intros H [c v] Hin. apply list_elem_of_In in Hin. now apply H.
Qed.

(** The first row of the scan that passes a test is the one with the least
    id among the rows of the table that pass it. *)
Lemma find_rows_least (P : User -> bool) (db : Store) (u : User) :
  List.find P (rows db) = Some u <->
  db !! id u = Some (row u) /\ P u = true /\
  forall k r, db !! k = Some r -> P (mkUser k r) = true -> (id u <= k)%Z.
Proof.
  split.
  - intros Hf. destruct (find_found _ _ _ Hf) as [Hin HP].
    repeat split; [now apply elem_of_rows | exact HP |].
    intros k r Hk HPk.
    apply (find_least by_id P (rows db) u ltac:(intros x; unfold by_id; lia)
             (rows_sorted db) Hf (mkUser k r)); [now apply rows_lookup | exact HPk].
  - intros (Hin & HP & Hleast).
    destruct (List.find P (rows db)) as [u0|] eqn:Hf.
    + destruct (find_found _ _ _ Hf) as [Hin0 HP0]. apply elem_of_rows in Hin0.
      pose proof (find_least by_id P (rows db) u0 ltac:(intros x; unfold by_id; lia)
                    (rows_sorted db) Hf u ltac:(now apply elem_of_rows) HP) as Hle.
      unfold by_id in Hle.
      assert (id u0 = id u) as Hid.
      { pose proof (Hleast (id u0) (row u0) Hin0) as Hge.
        destruct u0 as [k0 r0]. simpl in *. specialize (Hge HP0). lia. }
      destruct u0 as [k0 r0], u as [k r]. simpl in *. subst k0. congruence.
    + apply elem_of_rows, list_elem_of_In in Hin.
      pose proof (find_none _ _ Hf _ Hin). congruence.
Qed.

(** X8. With filters on columns, each with a value of the type of its
    column and every integer among them within 64 bits, [find_user_by]
    returns the row with the least id among those that equal every filter
    value, raises [NoResultFound] exactly when no row equals them all, and
    never writes. *)
Theorem find_user_by_first_match filters cols (db : Store) :
  columns_of filters = Some cols -> cols <> [] ->
  (forall c z, (c, VInt z) ∈ cols -> int64 z = true) ->
  (forall u,
      find_user_by filters db = (Ok u, db) <->
      db !! id u = Some (row u) /\
      (forall c v, (c, v) ∈ cols -> sql_eq (cell c u) v = true) /\
      forall k r, db !! k = Some r ->
        (forall c v, (c, v) ∈ cols -> sql_eq (cell c (mkUser k r)) v = true) ->
        (id u <= k)%Z) /\
  (find_user_by filters db = (Raise NoResultFound, db) <->
   forall k r, db !! k = Some r ->
     ~ forall c v, (c, v) ∈ cols -> sql_eq (cell c (mkUser k r)) v = true) /\
  snd (find_user_by filters db) = db.
Proof.
  intros Hc Hne _. rewrite (find_user_by_columns _ _ _ Hc Hne). split; [| split].
  - intros u. rewrite <- tuple_in_spec.
    assert ((forall k r, db !! k = Some r ->
               (forall c v, (c, v) ∈ cols -> sql_eq (cell c (mkUser k r)) v = true) ->
               (id u <= k)%Z) <->
            (forall k r, db !! k = Some r -> tuple_in cols (mkUser k r) = true ->
               (id u <= k)%Z)) as ->.
    { split; intros H k r Hk Ht; apply (H k r Hk); now apply tuple_in_spec. }
    rewrite <- find_rows_least.
    destruct (List.find (tuple_in cols) (rows db)); split; congruence.
  - destruct (List.find (tuple_in cols) (rows db)) as [u|] eqn:Hf.
    + split; [discriminate |]. intros Hno.
      apply find_rows_least in Hf as (Hin & Ht & _).
      destruct (Hno _ _ Hin). apply tuple_in_spec. now destruct u.
    + split; [| reflexivity]. intros _ k r Hk Hall.
      apply tuple_in_spec in Hall. apply rows_lookup, list_elem_of_In in Hk.
      pose proof (find_none _ _ Hf _ Hk). congruence.
  - now destruct (List.find (tuple_in cols) (rows db)).
Qed.

Lemma foldr_max_in (k : Z) (ks : list Z) : foldr Z.max k ks ∈ k :: ks.
Proof.
  induction ks as [|a ks IH]; simpl; [left |].
  destruct (Z.max_spec a (foldr Z.max k ks)) as [[_ ->] | [_ ->]].
  - apply elem_of_cons in IH as [-> | IH]; [left | right; now right].
  - right. left.
Qed.

(** The next key is [1] in an empty table, and otherwise follows a key of
    the table. *)
Lemma next_id_cases (db : Store) :
  next_id db = 1%Z \/ exists k r, db !! k = Some r /\ next_id db = (k + 1)%Z.
Proof.
  unfold next_id. destruct (id <$> rows db) as [|k0 ks] eqn:E; [now left |]. right.
  pose proof (foldr_max_in k0 ks) as Hin. rewrite <- E in Hin.
  apply list_elem_of_fmap in Hin as (u & Hu & Hin). apply elem_of_rows in Hin.
  exists (id u), (row u). split; [exact Hin | now rewrite Hu].
Qed.

(** X9. In a table whose keys are 64-bit integers below the largest one,
    what [add_user] inserts can be looked up: the new user has a 64-bit id
    above every id of the table and is the one found by that id; it is the
    one found by its email when no account had that email, and otherwise the
    older account is found; the rows that were there are kept. Without an
    email or without a hash nothing is inserted and [None] is returned. *)
Theorem add_user_then_find (db : Store) (e h : string) :
  (forall k r, db !! k = Some r -> int64 k = true /\ (k < 2 ^ 63 - 1)%Z) ->
  let new_user := mkUser (next_id db) (mkRow e h None None) in
  add_user (Some e) (Some h) db = (Ok (Some new_user), <[id new_user := row new_user]> db) /\
  int64 (id new_user) = true /\
  (forall k r, db !! k = Some r ->
     (k < id new_user)%Z /\ (<[id new_user := row new_user]> db) !! k = Some r) /\
  find_user_by [("id", VInt (id new_user))] (<[id new_user := row new_user]> db) =
    (Ok new_user, <[id new_user := row new_user]> db) /\
  ((forall k r, db !! k = Some r -> email r <> e) ->
   find_user_by [("email", VStr e)] (<[id new_user := row new_user]> db) =
     (Ok new_user, <[id new_user := row new_user]> db)) /\
  (forall k r, db !! k = Some r -> email r = e ->
   exists older,
     find_user_by [("email", VStr e)] (<[id new_user := row new_user]> db) =
       (Ok older, <[id new_user := row new_user]> db) /\
     db !! id older = Some (row older) /\ email older = e) /\
  add_user None (Some h) db = (Ok None, db) /\
  add_user (Some e) None db = (Ok None, db).
Proof.
  intros Hkeys new_user. simpl.
  assert (forall k r, db !! k = Some r -> k <> next_id db) as Hfresh.
  { intros k r Hk ->. rewrite next_id_fresh in Hk. discriminate. }
  repeat apply conj; try reflexivity.
  - unfold int64. destruct (next_id_cases db) as [-> | (k & r & Hk & ->)]; [reflexivity |].
    destruct (Hkeys k r Hk) as [Hin Hlt]. unfold int64 in Hin.
    apply andb_true_iff in Hin as [Hlo Hhi]. apply Z.leb_le in Hlo.
    apply andb_true_iff. split; [apply Z.leb_le | apply Z.ltb_lt]; lia.
  - intros k r Hk. split; [now apply (next_id_above db k r) |].
    rewrite lookup_insert_ne; [exact Hk | intros Heq; exact (Hfresh k r Hk (eq_sym Heq))].
  - rewrite (find_user_by_columns _ [(Id, VInt (next_id db))]) by easy.
    now rewrite find_by_id, lookup_insert_eq.
  - intros Hnew.
    apply (find_user_by_column_unique Email (VStr e) _ (next_id db) _ eq_refl).
    + apply lookup_insert_eq.
    + simpl. apply String.eqb_refl.
    + intros k' r' Hk' Hm. simpl in Hm. apply String.eqb_eq in Hm.
      destruct (decide (k' = next_id db)) as [-> | Hne]; [reflexivity |].
      rewrite lookup_insert_ne in Hk' by congruence. now destruct (Hnew _ _ Hk').
  - intros k r Hk He.
    rewrite (find_user_by_columns _ [(Email, VStr e)]) by easy.
    destruct (List.find (tuple_in [(Email, VStr e)])
                (rows (<[next_id db := mkRow e h None None]> db))) as [u|] eqn:Hf.
    + exists u. apply find_rows_least in Hf as (Hin & Hm & Hleast).
      rewrite tuple_in_single in Hm. simpl in Hm. apply String.eqb_eq in Hm.
      assert (id u <= k)%Z as Hle.
      { apply (Hleast k r).
        - rewrite lookup_insert_ne; [exact Hk | intros Heq; exact (Hfresh k r Hk (eq_sym Heq))].
        - rewrite tuple_in_single. simpl. rewrite He. apply String.eqb_refl. }
      pose proof (next_id_above db k r Hk).
      rewrite lookup_insert_ne in Hin by lia. easy.
    + assert (mkUser k r ∈ rows (<[next_id db := mkRow e h None None]> db)) as Hin.
      { apply rows_lookup. rewrite lookup_insert_ne; [exact Hk |].
        intros Heq; exact (Hfresh k r Hk (eq_sym Heq)). }
      apply list_elem_of_In in Hin. pose proof (find_none _ _ Hf _ Hin) as Hno.
      rewrite tuple_in_single in Hno. simpl in Hno. rewrite He, String.eqb_refl in Hno.
      discriminate.
Qed.

(** X10. The constraints of the table hold against [update_user], with
    ids within 64 bits: for an existing row, [None] for [email],
    [hashed_password] or [id], and an [id] that another row has, raise
    [IntegrityError] and change nothing; an [id] that is free moves the row,
    which is then found under the new id only. *)
Theorem update_user_constraints (db : Store) (k : Z) (r : Row) :
  db !! k = Some r -> int64 k = true ->
  update_user (Some k) [("email", VNone)] db = (Raise IntegrityError, db) /\
  update_user (Some k) [("hashed_password", VNone)] db = (Raise IntegrityError, db) /\
  update_user (Some k) [("id", VNone)] db = (Raise IntegrityError, db) /\
  (forall k' r', int64 k' = true -> k' <> k -> db !! k' = Some r' ->
     update_user (Some k) [("id", VInt k')] db = (Raise IntegrityError, db)) /\
  (forall k', int64 k' = true -> db !! k' = None ->
     update_user (Some k) [("id", VInt k')] db = (Ok tt, <[k' := r]> (delete k db)) /\
     find_user_by [("id", VInt k)] (<[k' := r]> (delete k db)) =
       (Raise NoResultFound, <[k' := r]> (delete k db)) /\
     find_user_by [("id", VInt k')] (<[k' := r]> (delete k db)) =
       (Ok (mkUser k' r), <[k' := r]> (delete k db))).
Proof.
  intros Hk _. repeat apply conj.
  - now rewrite (update_user_columns _ _ [(Email, VNone)]), Hk.
  - now rewrite (update_user_columns _ _ [(HashedPassword, VNone)]), Hk.
  - now rewrite (update_user_columns _ _ [(Id, VNone)]), Hk.
  - intros k' r' _ Hne Hk'. rewrite (update_user_columns _ _ [(Id, VInt k')]) by easy.
    rewrite Hk. simpl. rewrite Hk'.
    apply Z.eqb_neq in Hne as ->. now rewrite bool_decide_eq_true_2 by eauto.
  - intros k' _ Hfree. repeat apply conj.
    + rewrite (update_user_columns _ _ [(Id, VInt k')]) by easy. rewrite Hk. simpl.
      rewrite Hfree. rewrite bool_decide_eq_false_2 by (intros [? ?]; discriminate).
      now rewrite andb_false_r.
    + rewrite (find_user_by_columns _ [(Id, VInt k)]) by easy. rewrite find_by_id.
      assert (k <> k') as Hne by congruence.
      now rewrite lookup_insert_ne, lookup_delete_eq by congruence.
    + rewrite (find_user_by_columns _ [(Id, VInt k')]) by easy.
      now rewrite find_by_id, lookup_insert_eq.
Qed.

End DbExtras.

(** ** Further properties of [auth.py] *)

Section AuthExtras.

Import AuthService.
Context {orm : Orm} {bcrypt : Bcrypt}.

Ltac rewrite_column H :=
  let Hf := fresh "Hf" in
  pose proof H as Hf; cbn [column_name] in Hf; rewrite Hf; clear Hf.

Lemma create_session_found (e t : string) (db : Store) (u : User) :
  find_user_by [("email", VStr e)] db = (Ok u, db) -> db !! id u = Some (row u) ->
  create_session e t db = (Ok (Some t), <[id u := with_session (Some t) (row u)]> db).
Proof.
  intros Hf Hin. exact (create_session_any_found (Some e) t db u Hf Hin).
Qed.

Lemma create_session_missing (e t : string) (db : Store) :
  find_user_by [("email", VStr e)] db = (Raise NoResultFound, db) ->
  create_session e t db = (Ok None, db).
Proof.
  intros Hf. exact (create_session_any_missing (Some e) t db Hf).
Qed.

(** X11. For an email that no account has, [create_session] returns [None]
    and [get_reset_password_token] raises the [ValueError] for an unknown
    user; neither writes. *)
Theorem unknown_email_is_refused (db : Store) (e t : string) :
  (forall k r, db !! k = Some r -> email r <> e) ->
  create_session e t db = (Ok None, db) /\
  get_reset_password_token e t db = (Raise (ValueError "User not found"), db).
Proof.
  intros Hno. pose proof (find_email_missing e db Hno) as Hf. split.
  - now apply create_session_missing.
  - exact (get_reset_password_token_any_missing (Some e) t db Hf).
Qed.

(** X12. An account has one live session: a second [create_session] replaces
    the identifier, so the first one finds nobody and the second finds the
    account. *)
Theorem create_session_supersedes (db : Store) (k : Z) (r : Row) (t1 t2 : string) :
  db !! k = Some r ->
  (forall k' r', db !! k' = Some r' -> email r' = email r -> k' = k) ->
  (forall k' r', db !! k' = Some r' -> k' <> k ->
     session_id r' <> Some t1 /\ session_id r' <> Some t2) ->
  t1 <> "" -> t2 <> "" -> t1 <> t2 ->
  create_session (email r) t1 db = (Ok (Some t1), <[k := with_session (Some t1) r]> db) /\
  create_session (email r) t2 (<[k := with_session (Some t1) r]> db) =
    (Ok (Some t2), <[k := with_session (Some t2) r]> db) /\
  get_user_from_session_id (Some t1) (<[k := with_session (Some t2) r]> db) =
    (Ok None, <[k := with_session (Some t2) r]> db) /\
  get_user_from_session_id (Some t2) (<[k := with_session (Some t2) r]> db) =
    (Ok (Some (mkUser k (with_session (Some t2) r))), <[k := with_session (Some t2) r]> db).
Proof.
  intros Hk Huniq Hfresh Ht1 Ht2 Hne. repeat apply conj.
  - apply (create_session_found (email r) t1 db (mkUser k r)); [| exact Hk].
    now apply find_email_unique.
  - rewrite (create_session_found (email r) t2 _ (mkUser k (with_session (Some t1) r))).
    + simpl. now rewrite insert_insert_eq.
    + apply (find_email_unique _ k (with_session (Some t1) r)).
      * apply lookup_insert_eq.
      * intros k' r' Hk' He. destruct (decide (k' = k)) as [-> | Hn]; [reflexivity |].
        rewrite lookup_insert_ne in Hk' by congruence. eauto.
    + apply lookup_insert_eq.
  - destruct t1 as [|c t1]; [easy |].
    unfold get_user_from_session_id, except_NoResultFound, mbind, ret.
    rewrite_column (find_token_absent SessionId session_id db k
                      (with_session (Some t2) r) (String c t1)); try easy.
    + simpl. congruence.
    + intros k' r' Hk' Hn. now apply (Hfresh k' r').
  - destruct t2 as [|c t2]; [easy |].
    unfold get_user_from_session_id, except_NoResultFound, mbind, ret.
    rewrite_column (find_token_unique SessionId session_id db k
                      (with_session (Some (String c t2)) r) (String c t2)); try easy.
    intros k' r' Hk' Hn. now apply (Hfresh k' r').
Qed.

(** X13. [get_user_from_session_id] never raises and never writes, and it
    returns a user exactly when the identifier is not empty and that user is
    the row with the least id among the rows that hold it. *)
Theorem get_user_from_session_id_sound (sid : option string) (db : Store) :
  (exists found, get_user_from_session_id sid db = (Ok found, db)) /\
  forall u,
    get_user_from_session_id sid db = (Ok (Some u), db) <->
    sid <> Some "" /\ db !! id u = Some (row u) /\ session_id u = sid /\ sid <> None /\
    forall k r, db !! k = Some r -> session_id r = sid -> (id u <= k)%Z.
Proof.
  destruct sid as [[|c s]|].
  - split; [now exists None |]. intros u. split; [discriminate | easy].
  - unfold get_user_from_session_id, except_NoResultFound, mbind, ret.
    rewrite (find_user_by_columns _ [(SessionId, VStr (String c s))]) by easy.
    assert (forall u : User, tuple_in [(SessionId, VStr (String c s))] u = true <->
                             session_id u = Some (String c s)) as Hm.
    { intros u. rewrite tuple_in_single. apply sql_eq_opt. }
    split.
    + destruct (List.find _ (rows db)); eauto.
    + intros u. rewrite <- Hm.
      assert ((forall k r, db !! k = Some r -> session_id r = Some (String c s) ->
                 (id u <= k)%Z) <->
              (forall k r, db !! k = Some r ->
                 tuple_in [(SessionId, VStr (String c s))] (mkUser k r) = true ->
                 (id u <= k)%Z)) as Hl.
      { split; intros H k r Hk Ht; apply (H k r Hk); now apply (Hm (mkUser k r)). }
      pose proof (find_rows_least (tuple_in [(SessionId, VStr (String c s))]) db u) as Hf.
      destruct (List.find _ (rows db)) as [u0|]; split.
      * intros [= ->]. destruct Hf as [Hf _]. specialize (Hf eq_refl).
        rewrite Hl. easy.
      * intros (_ & Hin & Ht & _ & Hleast). rewrite Hl in Hleast.
        destruct Hf as [_ Hf]. now rewrite Hf.
      * discriminate.
      * intros (_ & Hin & Ht & _ & Hleast). rewrite Hl in Hleast.
        destruct Hf as [_ Hf]. now rewrite Hf.
  - split; [now exists None |]. intros u. split; [discriminate | easy].
Qed.

Lemma service_step_keeps_account (db db' : Store) (k : Z) (r : Row) :
  service_step db db' -> db !! k = Some r ->
  exists r', db' !! k = Some r' /\ email r' = email r.
Proof.
  intros Hstep Hk.
  destruct (service_step_effect _ _ Hstep)
    as [-> | [(k0 & r0 & r0' & Hk0 & He & ->) | (e & h & Hnew & ->)]].
  - eauto.
  - destruct (decide (k = k0)) as [-> | Hne].
    + exists r0'. rewrite lookup_insert_eq. split; congruence.
    + exists r. now rewrite lookup_insert_ne by congruence.
  - exists r. split; [| reflexivity]. rewrite lookup_insert_ne; [exact Hk |].
    intros Heq. rewrite <- Heq, next_id_fresh in Hk. discriminate.
Qed.

(** X14. The service never deletes an account and never changes an email:
    through any sequence of its calls, every account is still there under
    its id with the email it had. *)
Theorem service_keeps_accounts (db db' : Store) :
  rtc service_step db db' ->
  forall k r, db !! k = Some r -> exists r', db' !! k = Some r' /\ email r' = email r.
Proof.
  induction 1 as [db | db db1 db2 Hstep _ IH]; intros k r Hk; [eauto |].
  destruct (service_step_keeps_account _ _ _ _ Hstep Hk) as (r1 & Hk1 & He1).
  destruct (IH _ _ Hk1) as (r2 & Hk2 & He2). exists r2. split; congruence.
Qed.

(** An update that does not name [id] leaves every other row as it is, and
    on its row the columns that are not named. *)
Lemma update_user_frame user_id kwargs cols (db : Store) :
  columns_of kwargs = Some cols -> cols <> [] -> Id ∉ cols.*1 ->
  forall k r', snd (update_user user_id kwargs db) !! k = Some r' ->
  exists r, db !! k = Some r /\
            forall c, c ∉ cols.*1 -> cell c (mkUser k r') = cell c (mkUser k r).
Proof.
  intros Hc Hne Hid k r'. rewrite (update_user_columns _ _ cols) by assumption.
  destruct user_id as [k0|]; [| simpl; eauto].
  destruct (db !! k0) as [r0|] eqn:Hk0; [| simpl; eauto].
  destruct (assign_all cols (mkUser k0 r0)) as [u'|e] eqn:Ha; [| simpl; eauto].
  pose proof (assign_all_other _ _ _ Id Ha Hid) as Hsame. simpl in Hsame.
  injection Hsame as Hsame. rewrite Hsame, Z.eqb_refl. simpl. rewrite insert_delete_eq.
  destruct (decide (k = k0)) as [-> | Hn].
  - rewrite lookup_insert_eq. intros [= <-]. exists r0. split; [exact Hk0 |].
    intros c Hc'. rewrite <- (assign_all_other _ _ _ c Ha Hc').
    destruct u' as [k' ru]. simpl in *. now subst k'.
  - rewrite lookup_insert_ne by congruence. eauto.
Qed.

(** X15. Opening and closing a session touch the session identifier only:
    after [create_session] or [destroy_session] every account has the email,
    the password hash and the reset token it had. A password reset in turn
    leaves the session identifier alone: [get_reset_password_token] and
    [update_password] keep every account's email and session. *)
Theorem session_and_reset_are_separate (db : Store) (k : Z) (r' : Row) :
  (forall e t,
      snd (create_session e t db) !! k = Some r' ->
      exists r, db !! k = Some r /\ email r' = email r /\
                hashed_password r' = hashed_password r /\ reset_token r' = reset_token r) /\
  (forall user_id,
      snd (destroy_session user_id db) !! k = Some r' ->
      exists r, db !! k = Some r /\ email r' = email r /\
                hashed_password r' = hashed_password r /\ reset_token r' = reset_token r) /\
  (forall e t,
      snd (get_reset_password_token e t db) !! k = Some r' ->
      exists r, db !! k = Some r /\ email r' = email r /\
                hashed_password r' = hashed_password r /\ session_id r' = session_id r) /\
  (forall t p s,
      snd (update_password t p s db) !! k = Some r' ->
      exists r, db !! k = Some r /\ email r' = email r /\ session_id r' = session_id r).
Proof.
  assert (forall o1 o2, opt_value o1 = opt_value o2 -> o1 = o2) as Hopt
    by (intros [?|] [?|]; simpl; congruence).
  assert (forall r, db !! k = Some r ->
            (forall c, c ∉ [SessionId] -> cell c (mkUser k r') = cell c (mkUser k r)) ->
            exists r, db !! k = Some r /\ email r' = email r /\
              hashed_password r' = hashed_password r /\ reset_token r' = reset_token r)
    as Hsession.
  { intros r Hk Hcell. exists r. repeat split; [exact Hk | | |].
    - specialize (Hcell Email). simpl in Hcell.
      assert (Email ∉ [SessionId]) as Hn by (intros ?%list_elem_of_singleton; discriminate).
      specialize (Hcell Hn). congruence.
    - specialize (Hcell HashedPassword). simpl in Hcell.
      assert (HashedPassword ∉ [SessionId]) as Hn
        by (intros ?%list_elem_of_singleton; discriminate).
      specialize (Hcell Hn). congruence.
    - specialize (Hcell ResetToken). simpl in Hcell.
      assert (ResetToken ∉ [SessionId]) as Hn
        by (intros ?%list_elem_of_singleton; discriminate).
      apply Hopt. exact (Hcell Hn). }
  assert (forall c : column, c <> SessionId -> c ∉ [SessionId]) as Hnot1
    by (intros c Hc ?%list_elem_of_singleton; congruence).
  repeat apply conj.
  - intros e t. unfold create_session, create_session_any, except_NoResultFound, mbind, ret.
    cbn [opt_value].
    destruct (find_user_by_column_cases Email (VStr e) db eq_refl)
      as [(u & Hf & _) | [Hf _]]; cbn [column_name] in Hf; rewrite Hf.
    + pose proof (update_user_frame (Some (id u)) [("session_id", VStr t)]
                    [(SessionId, VStr t)] db eq_refl ltac:(easy)
                    ltac:(intros ?%list_elem_of_singleton; discriminate) k r') as Hfr.
      destruct (update_user _ _ db) as [[[]|err] db1]; simpl in *;
        intros Hk; destruct (Hfr Hk) as (r & Hr & Hcell); eauto.
    + simpl. intros Hk. exists r'. easy.
  - intros user_id. unfold destroy_session. destruct (id_truthy user_id).
    + intros Hk.
      destruct (update_user_frame user_id [("session_id", VNone)] [(SessionId, VNone)] db
                  eq_refl ltac:(easy) ltac:(intros ?%list_elem_of_singleton; discriminate)
                  k r' Hk) as (r & Hr & Hcell); eauto.
    + simpl. intros Hk. exists r'. easy.
  - intros e t.
    unfold get_reset_password_token, get_reset_password_token_any, except_NoResultFound,
      mbind, ret, raise.
    cbn [opt_value].
    destruct (find_user_by_column_cases Email (VStr e) db eq_refl)
      as [(u & Hf & _) | [Hf _]]; cbn [column_name] in Hf; rewrite Hf.
    + pose proof (update_user_frame (Some (id u)) [("reset_token", VStr t)]
                    [(ResetToken, VStr t)] db eq_refl ltac:(easy)
                    ltac:(intros ?%list_elem_of_singleton; discriminate) k r') as Hfr.
      assert (snd (update_user (Some (id u)) [("reset_token", VStr t)] db) !! k = Some r' ->
              exists r, db !! k = Some r /\ email r' = email r /\
                hashed_password r' = hashed_password r /\ session_id r' = session_id r)
        as Hgoal.
      { intros Hk. destruct (Hfr Hk) as (r & Hr & Hcell). exists r.
        pose proof (Hcell Email ltac:(intros ?%list_elem_of_singleton; discriminate)) as H1.
        pose proof (Hcell HashedPassword
                      ltac:(intros ?%list_elem_of_singleton; discriminate)) as H2.
        pose proof (Hcell SessionId
                      ltac:(intros ?%list_elem_of_singleton; discriminate)) as H3.
        simpl in H1, H2, H3. apply Hopt in H3. repeat split; congruence. }
      destruct (update_user _ _ db) as [[[]|err] db1]; simpl in *; exact Hgoal.
    + simpl. intros Hk. exists r'. easy.
  - intros t p s.
    unfold update_password, update_password_any, except_NoResultFound, mbind, ret, raise,
      lift.
    cbn [opt_value].
    destruct (find_user_by_column_cases ResetToken (VStr t) db eq_refl)
      as [(u & Hf & _) | [Hf _]]; cbn [column_name] in Hf; rewrite Hf.
    + destruct (_hash_password (Some p) s) as [h|err]; [| simpl; intros Hk; exists r'; easy].
      intros Hk.
      destruct (update_user_frame (Some (id u))
                  [("hashed_password", VStr h); ("reset_token", VNone)]
                  [(HashedPassword, VStr h); (ResetToken, VNone)] db
                  eq_refl ltac:(easy)
                  ltac:(intros Hin; repeat (apply elem_of_cons in Hin as [Hin | Hin];
                                            [discriminate |]); now apply elem_of_nil in Hin)
                  k r' Hk) as (r & Hr & Hcell).
      exists r.
      assert (forall c, c = Email \/ c = SessionId ->
                c ∉ [(HashedPassword, VStr h); (ResetToken, VNone)].*1)
        as Hn.
      { intros c Hc Hin. simpl in Hin.
        repeat (apply elem_of_cons in Hin as [Hin | Hin];
                [destruct Hc; congruence |]). now apply elem_of_nil in Hin. }
      pose proof (Hcell Email (Hn _ (or_introl eq_refl))) as H1.
      pose proof (Hcell SessionId (Hn _ (or_intror eq_refl))) as H3.
      simpl in H1, H3. apply Hopt in H3. repeat split; congruence.
    + simpl. intros Hk. exists r'. easy.
Qed.

End AuthExtras.

(** ** Properties of the routes of the service *)

Section AppFacts.

Import AuthService.
Context {orm : Orm} {bcrypt : Bcrypt}.

Ltac rewrite_column H :=
  let Hf := fresh "Hf" in
  pose proof H as Hf; cbn [column_name] in Hf; rewrite Hf; clear Hf.

(** [POST /sessions] when the lookup by the email finds an account. *)
Lemma login_found (em pw : option string) (t : string) (db : Store) (u : User) :
  find_user_by [("email", opt_value em)] db = (Ok u, db) -> db !! id u = Some (row u) ->
  App.login em pw t db =
    match bind (encode pw) (fun data => checkpw data (hashed_password u)) with
    | Ok true =>
        (Ok (App.Json 200 [("email", App.json_of em); ("message", App.JStr "logged in")]
                      [("session_id", Some t)]),
         <[id u := with_session (Some t) (row u)]> db)
    | Ok false | Raise NoResultFound => (Ok (App.Aborted 401), db)
    | Raise err => (Raise err, db)
    end.
Proof.
  intros Hf Hin. unfold App.login, mbind, ret. rewrite (valid_login_any_found em pw db u Hf).
  destruct (bind _ _) as [[|]|[]]; try reflexivity.
  cbn [negb]. now rewrite (create_session_any_found em t db u Hf Hin).
Qed.

(** [POST /sessions] when no account has the email, or the field is
    missing. *)
Lemma login_missing (em pw : option string) (t : string) (db : Store) :
  find_user_by [("email", opt_value em)] db = (Raise NoResultFound, db) ->
  App.login em pw t db = (Ok (App.Aborted 401), db).
Proof.
  intros Hf. unfold App.login, mbind, ret. now rewrite (valid_login_any_missing em pw db Hf).
Qed.

(** A missing field finds no account. *)
Lemma find_email_None (db : Store) :
  find_user_by [("email", VNone)] db = (Raise NoResultFound, db).
Proof.
  apply (find_user_by_column_absent Email VNone db eq_refl). reflexivity.
Qed.


(** X17. [POST /sessions], case by case. When no account has the email, or
    the form has no email, it aborts with 401 and writes nothing. Otherwise
    the first account with the email decides: if the form has no password
    the [AttributeError] of [encode] is let through; if [bcrypt.checkpw]
    accepts the password against the stored hash, the route answers 200,
    sets the cookie [session_id] to the new identifier and stores that
    identifier on the account; if [checkpw] rejects it, the route aborts
    with 401; and what [checkpw] raises is let through. Nothing is written
    but the session identifier. *)
Theorem login_outcome (db : Store) (em pw : option string) (t : string) :
  ((forall e, em = Some e -> forall k r, db !! k = Some r -> email r <> e) /\
   App.login em pw t db = (Ok (App.Aborted 401), db)) \/
  exists (u : User) e,
    em = Some e /\ db !! id u = Some (row u) /\ email u = e /\
    (forall k r, db !! k = Some r -> email r = e -> (id u <= k)%Z) /\
    App.login em pw t db =
      match pw with
      | None => (Raise AttributeError, db)
      | Some p =>
          match checkpw (encode_utf8 p) (hashed_password u) with
          | Ok true =>
              (Ok (App.Json 200 [("email", App.JStr e); ("message", App.JStr "logged in")]
                            [("session_id", Some t)]),
               <[id u := with_session (Some t) (row u)]> db)
          | Ok false | Raise NoResultFound => (Ok (App.Aborted 401), db)
          | Raise err => (Raise err, db)
          end
      end.
Proof.
  pose proof (find_user_by_columns [("email", opt_value em)] [(Email, opt_value em)] db
                ltac:(now destruct em) ltac:(easy)) as Hf.
  destruct (List.find (tuple_in [(Email, opt_value em)]) (rows db)) as [u|] eqn:Hfind.
  - right. apply find_rows_least in Hfind as (Hin & Hm & Hleast).
    rewrite tuple_in_single in Hm. destruct em as [e|]; [| discriminate].
    simpl in Hm. apply String.eqb_eq in Hm. exists u, e.
    repeat apply conj; try easy.
    + intros k r Hk He. apply (Hleast k r Hk). rewrite tuple_in_single. simpl.
      rewrite He. apply String.eqb_refl.
    + rewrite (login_found (Some e) pw t db u Hf Hin). now destruct pw.
  - left. split; [| now apply login_missing]. intros e -> k r Hk He.
    apply rows_lookup, list_elem_of_In in Hk. pose proof (find_none _ _ Hfind _ Hk) as Hno.
    rewrite tuple_in_single in Hno. simpl in Hno. rewrite He, String.eqb_refl in Hno.
    discriminate.
Qed.

Lemma session_lookup_holder (db : Store) k (r1 : Row) (t : string) :
  t <> "" -> session_id r1 = Some t ->
  (forall k' r', db !! k' = Some r' -> k' <> k -> session_id r' <> Some t) ->
  get_user_from_session_id (Some t) (<[k := r1]> db) =
    (Ok (Some (mkUser k r1)), <[k := r1]> db).
Proof.
  intros Ht Hs Hfresh. destruct t as [|c t]; [easy |].
  unfold get_user_from_session_id, except_NoResultFound, mbind, ret.
  now rewrite_column (find_token_unique SessionId session_id db k r1 (String c t)).
Qed.

Lemma session_lookup_nobody (db : Store) (sid : option string) :
  (forall s k r, sid = Some s -> db !! k = Some r -> session_id r <> Some s) ->
  get_user_from_session_id sid db = (Ok None, db).
Proof.
  intros Hno. destruct sid as [[|c s]|]; try reflexivity.
  unfold get_user_from_session_id, except_NoResultFound, mbind, ret.
  rewrite_column (find_user_by_column_absent SessionId (VStr (String c s)) db eq_refl);
    [reflexivity |].
  intros k r Hk. simpl. apply not_true_is_false. intros Hm. apply sql_eq_opt in Hm.
  exact (Hno _ k r eq_refl Hk Hm).
Qed.

(** X18. The session of the service, route by route: for the one account
    with its email, a password that checks, and a new identifier that is
    not empty and that no other account holds, [POST /sessions] sets the
    cookie; with that cookie [GET /profile] returns the email and
    [DELETE /sessions] redirects to [/] and clears the session; after that
    the same cookie is refused with 403 by both. *)
Theorem session_routes (db : Store) (k : Z) (r : Row) (p t : string) :
  db !! k = Some r ->
  (forall k' r', db !! k' = Some r' -> email r' = email r -> k' = k) ->
  checkpw (encode_utf8 p) (hashed_password r) = Ok true ->
  (forall k' r', db !! k' = Some r' -> k' <> k -> session_id r' <> Some t) ->
  t <> "" -> k <> 0%Z ->
  App.login (Some (email r)) (Some p) t db =
    (Ok (App.Json 200 [("email", App.JStr (email r)); ("message", App.JStr "logged in")]
                  [("session_id", Some t)]),
     <[k := with_session (Some t) r]> db) /\
  App.profile (Some t) (<[k := with_session (Some t) r]> db) =
    (Ok (App.Json 200 [("email", App.JStr (email r))] []), <[k := with_session (Some t) r]> db) /\
  App.logout (Some t) (<[k := with_session (Some t) r]> db) =
    (Ok (App.Redirect "/"), <[k := with_session None r]> db) /\
  App.profile (Some t) (<[k := with_session None r]> db) =
    (Ok (App.Aborted 403), <[k := with_session None r]> db) /\
  App.logout (Some t) (<[k := with_session None r]> db) =
    (Ok (App.Aborted 403), <[k := with_session None r]> db).
Proof.
  intros Hk Huniq Hpw Hfresh Ht Hk0.
  pose proof (session_lookup_holder db k (with_session (Some t) r) t Ht eq_refl Hfresh)
    as Hin.
  assert (get_user_from_session_id (Some t) (<[k := with_session None r]> db) =
            (Ok None, <[k := with_session None r]> db)) as Hout.
  { apply session_lookup_nobody. intros s k' r' [= <-] Hk' Hs.
    destruct (decide (k' = k)) as [-> | Hne].
    - rewrite lookup_insert_eq in Hk'. injection Hk' as <-. discriminate.
    - rewrite lookup_insert_ne in Hk' by congruence. exact (Hfresh k' r' Hk' Hne Hs). }
  repeat apply conj.
  - rewrite (login_found (Some (email r)) (Some p) t db (mkUser k r));
      [cbn [encode bind hashed_password row]; now rewrite Hpw | | exact Hk].
    now apply find_email_unique.
  - unfold App.profile, mbind, ret. now rewrite Hin.
  - unfold App.logout, mbind, ret. rewrite Hin. cbn [id].
    unfold destroy_session. simpl. apply Z.eqb_neq in Hk0 as ->. simpl.
    rewrite (update_user_row k (with_session (Some t) r) _ [(SessionId, VNone)]
               (mkUser k (with_session None r)));
      try easy; [| apply lookup_insert_eq].
    simpl. now rewrite insert_insert_eq.
  - unfold App.profile, mbind, ret. now rewrite Hout.
  - unfold App.logout, mbind, ret. now rewrite Hout.
Qed.

(** X19. Without a session there is no profile: when the cookie is missing,
    empty, or an identifier that no account holds, [GET /profile] and
    [DELETE /sessions] abort with 403 and write nothing. *)
Theorem no_session_is_forbidden (db : Store) (sid : option string) :
  (forall s k r, sid = Some s -> db !! k = Some r -> session_id r <> Some s) ->
  App.profile sid db = (Ok (App.Aborted 403), db) /\
  App.logout sid db = (Ok (App.Aborted 403), db).
Proof.
  intros Hno. pose proof (session_lookup_nobody db sid Hno) as Hf.
  unfold App.profile, App.logout, mbind, ret. now rewrite Hf.
Qed.

(** X20. The password reset, route by route: for the one account with its
    email, a new token that no other account holds, and a new password that
    [bcrypt.hashpw] hashes to [h]: [POST /reset_password] returns the token;
    [PUT /reset_password] with it answers 200 and stores [h] on that account
    whatever the field [email] of the form is (it is echoed, not checked);
    then [POST /sessions] sets a session for a password that
    [bcrypt.checkpw] accepts against [h] and aborts with 401 for one it
    rejects, and the used token is refused with 403. A new password that
    [bcrypt] refuses with a [ValueError] gets the same 403 and leaves the
    token valid. *)
Theorem reset_password_routes
    (db : Store) (k : Z) (r : Row) (t new_p h : string) (s : salt) :
  db !! k = Some r ->
  (forall k' r', db !! k' = Some r' -> email r' = email r -> k' = k) ->
  (forall k' r', db !! k' = Some r' -> k' <> k -> reset_token r' <> Some t) ->
  hashpw (encode_utf8 new_p) s = Ok h ->
  let requested := mkRow (email r) (hashed_password r) (session_id r) (Some t) in
  let updated := mkRow (email r) h (session_id r) None in
  App.get_reset_password_token (Some (email r)) t db =
    (Ok (App.Json 200 [("email", App.JStr (email r)); ("reset_token", App.JStr t)] []),
     <[k := requested]> db) /\
  (forall any_email,
     App.update_password any_email (Some t) (Some new_p) s (<[k := requested]> db) =
       (Ok (App.Json 200 [("email", App.json_of any_email);
                          ("message", App.JStr "Password updated")] []),
        <[k := updated]> db)) /\
  (forall p t2,
     checkpw (encode_utf8 p) h = Ok true ->
     App.login (Some (email r)) (Some p) t2 (<[k := updated]> db) =
       (Ok (App.Json 200 [("email", App.JStr (email r)); ("message", App.JStr "logged in")]
                     [("session_id", Some t2)]),
        <[k := with_session (Some t2) updated]> (<[k := updated]> db))) /\
  (forall p t2,
     checkpw (encode_utf8 p) h = Ok false ->
     App.login (Some (email r)) (Some p) t2 (<[k := updated]> db) =
       (Ok (App.Aborted 401), <[k := updated]> db)) /\
  (forall any_email any_p s',
     App.update_password any_email (Some t) any_p s' (<[k := updated]> db) =
       (Ok (App.Aborted 403), <[k := updated]> db)) /\
  (forall any_email p s' msg,
     hashpw (encode_utf8 p) s' = Raise (ValueError msg) ->
     App.update_password any_email (Some t) (Some p) s' (<[k := requested]> db) =
       (Ok (App.Aborted 403), <[k := requested]> db)).
Proof.
  intros Hk Huniq Hfresh Hh requested updated.
  assert (find_user_by [("reset_token", VStr t)] (<[k := requested]> db) =
            (Ok (mkUser k requested), <[k := requested]> db)) as Hfound.
  { now rewrite_column (find_token_unique ResetToken reset_token db k requested t). }
  assert (forall p s',
            update_password_any (Some t) (Some p) s' (<[k := requested]> db) =
            match hashpw (encode_utf8 p) s' with
            | Ok h' => (Ok tt, <[k := mkRow (email r) h' (session_id r) None]> db)
            | Raise err => (Raise err, <[k := requested]> db)
            end) as Hupdate.
  { intros p s'.
    rewrite (update_password_any_found (Some t) (Some p) s' _ (mkUser k requested) Hfound)
      by apply lookup_insert_eq.
    unfold _hash_password. cbn [encode bind].
    destruct (hashpw (encode_utf8 p) s'); [| reflexivity]. simpl.
    now rewrite insert_insert_eq. }
  assert (forall p t2,
            App.login (Some (email r)) (Some p) t2 (<[k := updated]> db) =
            match checkpw (encode_utf8 p) h with
            | Ok true =>
                (Ok (App.Json 200 [("email", App.JStr (email r));
                                   ("message", App.JStr "logged in")]
                              [("session_id", Some t2)]),
                 <[k := with_session (Some t2) updated]> (<[k := updated]> db))
            | Ok false | Raise NoResultFound => (Ok (App.Aborted 401), <[k := updated]> db)
            | Raise err => (Raise err, <[k := updated]> db)
            end) as Hlogin.
  { intros p t2.
    apply (login_found (Some (email r)) (Some p) t2 _ (mkUser k updated));
      [| apply lookup_insert_eq].
    apply (find_email_unique _ k updated); [apply lookup_insert_eq |].
    intros k' r' Hk' He. destruct (decide (k' = k)) as [-> | Hne]; [reflexivity |].
    rewrite lookup_insert_ne in Hk' by congruence. eauto. }
  repeat apply conj.
  - unfold App.get_reset_password_token, App.except_ValueError, mbind, ret.
    now rewrite (get_reset_password_token_any_found (Some (email r)) t db (mkUser k r)
                   (find_email_unique db k r Hk Huniq) Hk).
  - intros any_email. unfold App.update_password, App.except_ValueError, mbind, ret.
    now rewrite Hupdate, Hh.
  - intros p t2 Hc. now rewrite Hlogin, Hc.
  - intros p t2 Hc. now rewrite Hlogin, Hc.
  - intros any_email any_p s'. unfold App.update_password, App.except_ValueError, mbind, ret.
    rewrite (update_password_any_missing (Some t) any_p s'); [reflexivity |].
    cbn [opt_value].
    now rewrite_column (find_token_absent ResetToken reset_token db k updated t).
  - intros any_email p s' msg Hc.
    unfold App.update_password, App.except_ValueError, mbind, ret.
    now rewrite Hupdate, Hc.
Qed.

(** X21. What the routes are asked about must exist: for an email that no
    account has, [POST /sessions] aborts with 401 and [POST /reset_password]
    with 403; for a reset token that no account holds, [PUT /reset_password]
    aborts with 403; none of them writes, whatever the other fields of the
    form are, and a form without the email or without the token is answered
    in the same way. *)
Theorem unknown_email_or_token_is_refused (db : Store) (e t : string) :
  (forall k r, db !! k = Some r -> email r <> e /\ reset_token r <> Some t) ->
  (forall p uuid4, App.login (Some e) p uuid4 db = (Ok (App.Aborted 401), db)) /\
  (forall uuid4,
      App.get_reset_password_token (Some e) uuid4 db = (Ok (App.Aborted 403), db)) /\
  (forall any_email p s,
      App.update_password any_email (Some t) p s db = (Ok (App.Aborted 403), db)) /\
  (forall p uuid4, App.login None p uuid4 db = (Ok (App.Aborted 401), db)) /\
  (forall uuid4, App.get_reset_password_token None uuid4 db = (Ok (App.Aborted 403), db)) /\
  (forall any_email p s,
      App.update_password any_email None p s db = (Ok (App.Aborted 403), db)).
Proof.
  intros Hno.
  assert (find_user_by [("email", VStr e)] db = (Raise NoResultFound, db)) as Hf.
  { apply find_email_missing. intros k r Hk. now destruct (Hno k r Hk). }
  repeat apply conj.
  - intros p uuid4. now apply login_missing.
  - intros uuid4. unfold App.get_reset_password_token, App.except_ValueError, mbind, ret.
    now rewrite (get_reset_password_token_any_missing (Some e) uuid4 db Hf).
  - intros any_email p s. unfold App.update_password, App.except_ValueError, mbind, ret.
    rewrite (update_password_any_missing (Some t) p s db); [reflexivity |].
    apply find_reset_token_missing. intros t' k r [= <-] Hk. now destruct (Hno k r Hk).
  - intros p uuid4. apply login_missing. apply find_email_None.
  - intros uuid4. unfold App.get_reset_password_token, App.except_ValueError, mbind, ret.
    now rewrite (get_reset_password_token_any_missing None uuid4 db (find_email_None db)).
  - intros any_email p s. unfold App.update_password, App.except_ValueError, mbind, ret.
    rewrite (update_password_any_missing None p s db); [reflexivity |].
    apply find_reset_token_missing. discriminate.
Qed.

End AppFacts.

(** ** The further properties on the table with one account *)

Section ExtraRuns.

Import AuthService Instances.

Lemma find_user_by_first_match_witness :
  find_user_by [("id", VInt 1); ("email", VStr "a@example.com")]
    one_account = (Ok (mkUser 1 alice), one_account) /\
  find_user_by [("email", VStr "a@example.com"); ("hashed_password", VStr "other")]
    one_account = (Raise NoResultFound, one_account).
Proof.
  split.
  - destruct (@find_user_by_first_match strict_orm
                [("id", VInt 1); ("email", VStr "a@example.com")]
                [(Id, VInt 1); (Email, VStr "a@example.com")]
                one_account eq_refl ltac:(discriminate)) as (Hfound & _ & _).
    + intros c z Hin. apply elem_of_cons in Hin as [[= -> ->] | Hin]; [reflexivity |].
      apply list_elem_of_singleton in Hin. discriminate.
    + apply (Hfound (mkUser 1 alice)). repeat apply conj.
      * reflexivity.
      * intros c v Hin. apply elem_of_cons in Hin as [[= -> ->] | Hin]; [reflexivity |].
        apply list_elem_of_singleton in Hin as [= -> ->]. reflexivity.
      * intros k r Hk _. rewrite (one_account_only k r Hk). simpl. lia.
  - destruct (@find_user_by_first_match strict_orm
                [("email", VStr "a@example.com"); ("hashed_password", VStr "other")]
                [(Email, VStr "a@example.com"); (HashedPassword, VStr "other")]
                one_account eq_refl ltac:(discriminate)) as (_ & Hnone & _).
    + intros c z Hin. apply elem_of_cons in Hin as [[=] | Hin].
      apply list_elem_of_singleton in Hin. discriminate.
    + apply Hnone. intros k r Hk Hall. rewrite (one_account_only k r Hk) in Hk.
      injection Hk as <-.
      specialize (Hall HashedPassword (VStr "other") ltac:(right; left)). discriminate.
Defined.

Lemma add_user_then_find_witness :
  let new_user := mkUser 2 (mkRow "b@example.com" "h2" None None) in
  add_user (Some "b@example.com") (Some "h2") one_account =
    (Ok (Some new_user), <[2%Z := row new_user]> one_account) /\
  find_user_by [("id", VInt 2)] (<[2%Z := row new_user]> one_account) =
    (Ok new_user, <[2%Z := row new_user]> one_account) /\
  find_user_by [("email", VStr "b@example.com")] (<[2%Z := row new_user]> one_account) =
    (Ok new_user, <[2%Z := row new_user]> one_account).
Proof.
  destruct (@add_user_then_find strict_orm one_account "b@example.com" "h2")
    as (Hadd & _ & _ & Hid & Hemail & _).
  - intros k r Hk. rewrite (one_account_only k r Hk). split; [reflexivity | lia].
  - split; [exact Hadd |]. split; [exact Hid |]. apply Hemail.
    intros k r Hk. rewrite (one_account_only k r Hk) in Hk. now injection Hk as <-.
Defined.

Lemma update_user_constraints_witness :
  one_account !! 1%Z = Some alice /\
  update_user (Some 1%Z) [("email", VNone)] one_account = (Raise IntegrityError, one_account) /\
  update_user (Some 1%Z) [("id", VInt 5)] one_account =
    (Ok tt, <[5%Z := alice]> (delete 1%Z one_account)).
Proof.
  destruct (@update_user_constraints strict_orm one_account 1%Z alice eq_refl eq_refl)
    as (Hnull & _ & _ & _ & Hmove).
  split; [reflexivity |]. split; [exact Hnull |].
  exact (proj1 (Hmove 5%Z eq_refl eq_refl)).
Defined.

Lemma one_account_no_other_email (e : string) :
  e <> "a@example.com" -> forall k r, one_account !! k = Some r -> email r <> e.
Proof.
  intros Hne k r Hk. rewrite (one_account_only k r Hk) in Hk. injection Hk as <-.
  intros Heq. apply Hne. now rewrite <- Heq.
Qed.

Lemma unknown_email_is_refused_witness :
  create_session "b@example.com" "tok" one_account = (Ok None, one_account) /\
  get_reset_password_token "b@example.com" "rst" one_account =
    (Raise (ValueError "User not found"), one_account).
Proof.
  split.
  - exact (proj1 (@unknown_email_is_refused strict_orm one_account "b@example.com" "tok"
                    (one_account_no_other_email "b@example.com" ltac:(discriminate)))).
  - exact (proj2 (@unknown_email_is_refused strict_orm one_account "b@example.com" "rst"
                    (one_account_no_other_email "b@example.com" ltac:(discriminate)))).
Defined.

Lemma create_session_supersedes_witness :
  create_session "a@example.com" "tok1" one_account =
    (Ok (Some "tok1"), <[1%Z := with_session (Some "tok1") alice]> one_account) /\
  create_session "a@example.com" "tok2" (<[1%Z := with_session (Some "tok1") alice]> one_account) =
    (Ok (Some "tok2"), <[1%Z := with_session (Some "tok2") alice]> one_account) /\
  get_user_from_session_id (Some "tok1")
    (<[1%Z := with_session (Some "tok2") alice]> one_account) =
    (Ok None, <[1%Z := with_session (Some "tok2") alice]> one_account) /\
  get_user_from_session_id (Some "tok2")
    (<[1%Z := with_session (Some "tok2") alice]> one_account) =
    (Ok (Some (mkUser 1 (with_session (Some "tok2") alice))),
     <[1%Z := with_session (Some "tok2") alice]> one_account).
Proof.
  apply (@create_session_supersedes strict_orm one_account 1%Z alice "tok1" "tok2").
  - reflexivity.
  - intros k' r' Hk' _. exact (one_account_only k' r' Hk').
  - intros k' r' Hk' Hne. now destruct (Hne (one_account_only k' r' Hk')).
  - discriminate.
  - discriminate.
  - discriminate.
Defined.

Lemma service_keeps_accounts_witness :
  rtc service_step one_account (snd (create_session "a@example.com" "tok" one_account)) /\
  exists r', snd (create_session "a@example.com" "tok" one_account) !! 1%Z = Some r' /\
             email r' = "a@example.com".
Proof.
  assert (rtc service_step one_account
            (snd (create_session "a@example.com" "tok" one_account))) as Hsteps
    by (apply rtc_once; exact (step_create_session (Some "a@example.com") "tok" one_account)).
  split; [exact Hsteps |].
  exact (@service_keeps_accounts strict_orm salted _ _ Hsteps 1%Z alice eq_refl).
Defined.

Lemma session_routes_witness :
  App.login (Some "a@example.com") (Some "pw1") "tok" one_account =
    (Ok (App.Json 200 [("email", App.JStr "a@example.com"); ("message", App.JStr "logged in")]
                  [("session_id", Some "tok")]),
     <[1%Z := with_session (Some "tok") alice]> one_account) /\
  App.profile (Some "tok") (<[1%Z := with_session (Some "tok") alice]> one_account) =
    (Ok (App.Json 200 [("email", App.JStr "a@example.com")] []),
     <[1%Z := with_session (Some "tok") alice]> one_account) /\
  App.logout (Some "tok") (<[1%Z := with_session (Some "tok") alice]> one_account) =
    (Ok (App.Redirect "/"), <[1%Z := with_session None alice]> one_account) /\
  App.profile (Some "tok") (<[1%Z := with_session None alice]> one_account) =
    (Ok (App.Aborted 403), <[1%Z := with_session None alice]> one_account) /\
  App.logout (Some "tok") (<[1%Z := with_session None alice]> one_account) =
    (Ok (App.Aborted 403), <[1%Z := with_session None alice]> one_account).
Proof.
  apply (@session_routes strict_orm salted one_account 1%Z alice "pw1" "tok").
  - reflexivity.
  - intros k' r' Hk' _. exact (one_account_only k' r' Hk').
  - reflexivity.
  - intros k' r' Hk' Hne. now destruct (Hne (one_account_only k' r' Hk')).
  - discriminate.
  - lia.
Defined.

Lemma no_session_is_forbidden_witness :
  App.profile (Some "nope") one_account = (Ok (App.Aborted 403), one_account) /\
  App.logout (Some "nope") one_account = (Ok (App.Aborted 403), one_account).
Proof.
  apply (@no_session_is_forbidden strict_orm one_account (Some "nope")).
  intros s k r [= <-] Hk. rewrite (one_account_only k r Hk) in Hk. injection Hk as <-.
  discriminate.
Defined.

Lemma reset_password_routes_witness :
  let requested := mkRow "a@example.com" "spw1" None (Some "rst") in
  let updated := mkRow "a@example.com" "tpw2" None None in
  App.get_reset_password_token (Some "a@example.com") "rst" one_account =
    (Ok (App.Json 200 [("email", App.JStr "a@example.com"); ("reset_token", App.JStr "rst")]
                  []),
     <[1%Z := requested]> one_account) /\
  (forall any_email,
     App.update_password any_email (Some "rst") (Some "pw2") "t"%char
       (<[1%Z := requested]> one_account) =
       (Ok (App.Json 200 [("email", App.json_of any_email);
                          ("message", App.JStr "Password updated")] []),
        <[1%Z := updated]> one_account)) /\
  (forall p t2,
     checkpw (encode_utf8 p) "tpw2" = Ok true ->
     App.login (Some "a@example.com") (Some p) t2 (<[1%Z := updated]> one_account) =
       (Ok (App.Json 200 [("email", App.JStr "a@example.com");
                          ("message", App.JStr "logged in")]
                     [("session_id", Some t2)]),
        <[1%Z := with_session (Some t2) updated]> (<[1%Z := updated]> one_account))) /\
  (forall p t2,
     checkpw (encode_utf8 p) "tpw2" = Ok false ->
     App.login (Some "a@example.com") (Some p) t2 (<[1%Z := updated]> one_account) =
       (Ok (App.Aborted 401), <[1%Z := updated]> one_account)) /\
  (forall any_email any_p s',
     App.update_password any_email (Some "rst") any_p s' (<[1%Z := updated]> one_account) =
       (Ok (App.Aborted 403), <[1%Z := updated]> one_account)) /\
  (forall any_email p s' msg,
     hashpw (encode_utf8 p) s' = Raise (ValueError msg) ->
     App.update_password any_email (Some "rst") (Some p) s'
       (<[1%Z := requested]> one_account) =
       (Ok (App.Aborted 403), <[1%Z := requested]> one_account)).
Proof.
  apply (@reset_password_routes strict_orm salted
           one_account 1%Z alice "rst" "pw2" "tpw2" "t"%char).
  - reflexivity.
  - intros k' r' Hk' _. exact (one_account_only k' r' Hk').
  - intros k' r' Hk' Hne. now destruct (Hne (one_account_only k' r' Hk')).
  - reflexivity.
Defined.

Lemma unknown_email_or_token_is_refused_witness :
  (forall p uuid4,
     App.login (Some "b@example.com") p uuid4 one_account =
       (Ok (App.Aborted 401), one_account)) /\
  (forall uuid4,
     App.get_reset_password_token (Some "b@example.com") uuid4 one_account =
       (Ok (App.Aborted 403), one_account)) /\
  (forall any_email p s,
     App.update_password any_email (Some "rst") p s one_account =
       (Ok (App.Aborted 403), one_account)) /\
  (forall p uuid4, App.login None p uuid4 one_account = (Ok (App.Aborted 401), one_account)) /\
  (forall uuid4,
     App.get_reset_password_token None uuid4 one_account =
       (Ok (App.Aborted 403), one_account)) /\
  (forall any_email p s,
     App.update_password any_email None p s one_account =
       (Ok (App.Aborted 403), one_account)).
Proof.
  apply (@unknown_email_or_token_is_refused strict_orm salted one_account
           "b@example.com" "rst").
  intros k r Hk. rewrite (one_account_only k r Hk) in Hk. injection Hk as <-.
  split; discriminate.
Defined.

(** The routes on the table with one account: a registration with a
    password of 73 bytes is answered as if the email were registered, a
    login with it is not answered at all, and a form without its fields
    registers nobody. *)
Example routes_run :
  App.users (Some "b@example.com") (Some long_password) "t"%char one_account =
    (Ok (App.Json 400 [("message", App.JStr "email already registered")] []), one_account) /\
  App.users (Some "b@example.com") (Some "pw2") "t"%char one_account =
    (Ok (App.Json 200 [("email", App.JStr "b@example.com");
                       ("message", App.JStr "user created")] []),
     <[2%Z := mkRow "b@example.com" "tpw2" None None]> one_account) /\
  App.users None (Some "pw2") "t"%char one_account =
    (Ok (App.Json 200 [("email", App.JNull); ("message", App.JStr "user created")] []),
     one_account) /\
  App.users (Some "b@example.com") None "t"%char one_account =
    (Raise AttributeError, one_account) /\
  App.login (Some "a@example.com") (Some long_password) "tok" one_account =
    (Raise password_too_long, one_account) /\
  App.login (Some "a@example.com") None "tok" one_account =
    (Raise AttributeError, one_account) /\
  App.login (Some "a@example.com") (Some "pw2") "tok" one_account =
    (Ok (App.Aborted 401), one_account).
Proof. vm_compute. repeat split. Qed.

End ExtraRuns.
